(** * relax: exponential relaxation models and the fit driver

    A shallow embedding of [relax.py].

    - Python floats and NumPy float64 values are IEEE 754 binary64 numbers:
      Rocq's primitive floats, with [==], [<], [abs] and [sqrt] the
      primitive operations.
    - [np.exp], the rendering of a float inside an f-string and SciPy's
      [curve_fit] are not code of the repository; they are variables of the
      sections that use them.
    - Sequences and arrays are objects in a store and are passed by
      reference; the driver runs in a state and exception monad over the
      store and a log of events, the events being the call of the solver
      and the warnings raised with [warnings.warn].  NumPy's own reports
      of floating-point exceptions are not in the log. *)

From Stdlib Require Import ZArith Bool String Ascii Lia List.
From Stdlib Require Import Floats DecimalString.
Import ListNotations.

Local Open Scope float_scope.

(** ** Floating-point preliminaries *)

Module Float64.

(** [np.isfinite]: neither an infinity nor a NaN. *)
Definition is_finite (f : float) : bool :=
  match classify f with
  | NaN | PInf | NInf => false
  | _ => true
  end.

(** [np.isnan]. *)
Definition is_nan (f : float) : bool :=
  match classify f with
  | NaN => true
  | _ => false
  end.

Definition SF_finite (s : spec_float) : bool :=
  match s with
  | S754_zero _ | S754_finite _ _ _ => true
  | _ => false
  end.

Definition SF_nan (s : spec_float) : bool :=
  match s with
  | S754_nan => true
  | _ => false
  end.

(** Truncation of a float towards zero, C's [(int)] cast. *)
Definition trunc (f : float) : Z :=
  match Prim2SF f with
  | S754_finite s m e =>
      let n := match e with
               | Zneg p => Z.shiftr (Zpos m) (Zpos p)
               | _ => Z.shiftl (Zpos m) e
               end in
      if s then Z.opp n else n
  | _ => 0%Z
  end.

(** The float nearest to an integer. *)
Definition of_Z (k : Z) : float :=
  SF2Prim (binary_normalize prec emax k 0 false).

End Float64.

(** ** A reference exponential

    [np.exp] is NumPy's; its value on ordinary arguments may differ in the
    last place between platforms, but IEEE 754 and C's Annex F fix what it
    returns at the special values and beyond the overflow and underflow
    thresholds.  [exp_model] is a reference routine in the classical style
    (argument reduction by multiples of ln 2, a rational approximation on
    the reduced argument, scaling by a power of two).  It instantiates
    [np_exp] in the closed examples of this file. *)

Module ExpModel.

Definition o_threshold := 0x1.62e42fefa39efp+9.
Definition u_threshold := -0x1.74910d52d3051p+9.
Definition ln2HI := 0x1.62e42feep-1.
Definition ln2LO := 0x1.a39ef35793c76p-33.
Definition invln2 := 0x1.71547652b82fep+0.
Definition P1 := 0x1.555555555553ep-3.
Definition P2 := -0x1.6c16c16bebd93p-9.
Definition P3 := 0x1.1566aaf25de2cp-14.
Definition P4 := -0x1.bbd41c5d26bf1p-20.
Definition P5 := 0x1.6376972bea4d0p-25.

Definition reduced (x : float) : Z * float * float :=
  let half := if x <? 0 then -0.5 else 0.5 in
  let k := Float64.trunc (invln2 * x + half) in
  let t := Float64.of_Z k in
  (k, x - t * ln2HI, t * ln2LO).

Definition kernel (k : Z) (hi lo : float) : float :=
  let r := hi - lo in
  let t := r * r in
  let c := r - t * (P1 + t * (P2 + t * (P3 + t * (P4 + t * P5)))) in
  let y := 1 - ((lo - (r * c) / (2 - c)) - hi) in
  Z.ldexp y k.

Definition exp_model (x : float) : float :=
  match classify x with
  | NaN => nan
  | PInf => infinity
  | NInf => 0
  | _ =>
      if o_threshold <? x then infinity
      else if x <? u_threshold then 0
      else let '(k, hi, lo) := reduced x in kernel k hi lo
  end.

End ExpModel.

Import ExpModel.

(** ** Python values the driver handles *)

(** A Python function of float arguments: the parameter names that
    [inspect.signature] reports, and the value it computes from its
    positional arguments. *)
Record pyfunc := {
  parameters : list string;
  code : list float -> float
}.

Inductive exn :=
| AssertionError
| IndexError
| TypeError
| SolverError (message : string).

(** Calling a function with positional arguments: Python raises
    [TypeError] unless there is one argument per parameter. *)
Definition call (f : pyfunc) (args : list float) : exn + float :=
  if Nat.eqb (length args) (length (parameters f))
  then inr (code f args)
  else inl TypeError.

(** [len(signature(f).parameters) - 1], on Python's unbounded integers. *)
Definition arity (f : pyfunc) : Z :=
  (Z.of_nat (length (parameters f)) - 1)%Z.

(** ** The model functions *)

Section Models.

Variable np_exp : float -> float.

Definition single_step_relaxation (x a b c : float) : float :=
  a * (1 - np_exp (- b * x)) + c.

Definition two_step_relaxation (x a b c d e : float) : float :=
  a * (1 - np_exp (- b * x)) + c * (1 - np_exp (- d * x)) + e.

Definition three_step_relaxation (x a b c d e f g : float) : float :=
  a * (1 - np_exp (- b * x)) + c * (1 - np_exp (- d * x))
  + e * (1 - np_exp (- f * x)) + g.

(** The three functions as Python function objects. *)
Definition single_step : pyfunc := {|
  parameters := ["x"; "a"; "b"; "c"]%string;
  code := fun args =>
    match args with
    | [x; a; b; c] => single_step_relaxation x a b c
    | _ => nan
    end
|}.

Definition two_step : pyfunc := {|
  parameters := ["x"; "a"; "b"; "c"; "d"; "e"]%string;
  code := fun args =>
    match args with
    | [x; a; b; c; d; e] => two_step_relaxation x a b c d e
    | _ => nan
    end
|}.

Definition three_step : pyfunc := {|
  parameters := ["x"; "a"; "b"; "c"; "d"; "e"; "f"; "g"]%string;
  code := fun args =>
    match args with
    | [x; a; b; c; d; e; f; g] => three_step_relaxation x a b c d e f g
    | _ => nan
    end
|}.

(** The specification's reading of a relaxation model: amplitude/rate
    pairs, each contributing [amplitude * (1 - exp(-rate * x))], summed in
    order, plus an offset. *)
Definition relaxation_term (x : float) (pair : float * float) : float :=
  fst pair * (1 - np_exp (- snd pair * x)).

Definition spec_relaxation
    (pairs : list (float * float)) (offset x : float) : float :=
  match pairs with
  | [] => offset
  | p :: rest =>
      fold_left (fun acc q => acc + relaxation_term x q) rest
                (relaxation_term x p) + offset
  end.

End Models.

(** ** The store and the effects of the driver

    Sequences and arrays are Python objects held by reference; the driver
    receives and returns references.  A world is the store of objects
    together with the log of observable events: calls of the external
    solver and warnings. *)

Definition loc := nat.

Inductive pyobj :=
| ObjSeq (items : list float)           (* list, tuple or 1-D array *)
| ObjMatrix (rows : list (list float)).  (* 2-D array *)

Inductive event :=
| EvCurveFit (f : pyfunc) (xdata ydata p0 : pyobj) (maxfev : Z)
| EvWarn (message : string).

Record world := { heap : list pyobj; log : list event }.

Definition M (A : Type) : Type := world -> (exn + A) * world.

Definition ret {A} (a : A) : M A := fun w => (inr a, w).

Definition raise {A} (e : exn) : M A := fun w => (inl e, w).

Definition bind {A B} (m : M A) (k : A -> M B) : M B :=
  fun w =>
    match m w with
    | (inl e, w') => (inl e, w')
    | (inr a, w') => k a w'
    end.

Declare Scope py_scope.
Delimit Scope py_scope with py.
Notation "x <- m ;; k" := (bind m (fun x => k))
  (at level 61, m at next level, right associativity) : py_scope.
Notation "m ;; k" := (bind m (fun _ => k))
  (at level 61, right associativity) : py_scope.
Local Open Scope py_scope.

Definition lift {A} (r : exn + A) : M A :=
  match r with
  | inl e => raise e
  | inr a => ret a
  end.

(** Dereferencing; a reference a caller holds is always allocated, the
    error case is for references that are not. *)
Definition deref (l : loc) : M pyobj :=
  fun w =>
    match nth_error (heap w) l with
    | Some o => (inr o, w)
    | None => (inl TypeError, w)
    end.

Definition alloc (o : pyobj) : M loc :=
  fun w => (inr (length (heap w)), {| heap := heap w ++ [o]; log := log w |}).

Definition emit (ev : event) : M unit :=
  fun w => (inr tt, {| heap := heap w; log := log w ++ [ev] |}).

(** [warnings.warn]: the warning is recorded and execution continues.
    What the interpreter's warning filters then do with it (print it once,
    ignore it) is not the driver's. *)
Definition warn (message : string) : M unit := emit (EvWarn message).

(** [len(o)]. *)
Definition py_len (o : pyobj) : Z :=
  match o with
  | ObjSeq items => Z.of_nat (length items)
  | ObjMatrix rows => Z.of_nat (length rows)
  end.

Definition len (l : loc) : M Z :=
  o <- deref l ;; ret (py_len o).

(** Iterating a one-dimensional sequence of floats.  Iterating a matrix
    would yield its rows, which the float-valued [pyfunc] cannot take. *)
Definition iterate (l : loc) : M (list float) :=
  o <- deref l ;;
  match o with
  | ObjSeq items => ret items
  | ObjMatrix _ => raise TypeError
  end.

(** [a[i, j]] *)
Definition diagonal_entry (o : pyobj) (i j : nat) : option float :=
  match o with
  | ObjMatrix rows =>
      match nth_error rows i with
      | Some row => nth_error row j
      | None => None
      end
  | ObjSeq _ => None
  end.

Definition getitem2 (l : loc) (i j : nat) : M float :=
  o <- deref l ;;
  match diagonal_entry o i j with
  | Some v => ret v
  | None => raise IndexError
  end.

(** [s[i]] on a string. *)
Definition str_getitem (s : string) (i : nat) : M ascii :=
  match String.get i s with
  | Some ch => ret ch
  | None => raise IndexError
  end.

Definition py_assert (b : bool) : M unit :=
  if b then ret tt else raise AssertionError.

(** [for index, value in enumerate(values): body] *)
Fixpoint for_enumerate
    (index : nat) (values : list float) (body : nat -> float -> M unit)
    : M unit :=
  match values with
  | [] => ret tt
  | value :: rest =>
      body index value ;; for_enumerate (S index) rest body
  end.

(** [[body(i) for i in xs]] *)
Fixpoint list_comprehension
    (xs : list float) (body : float -> M float) : M (list float) :=
  match xs with
  | [] => ret []
  | i :: rest =>
      v <- body i ;;
      vs <- list_comprehension rest body ;;
      ret (v :: vs)
  end.

(** ** The fit driver *)

(** The external solver, called with the model, the objects [xdata],
    [ydata] and [p0], and [maxfev]: it raises, or returns the fitted
    parameters and their covariance matrix. *)
Definition solver : Type :=
  pyfunc -> pyobj -> pyobj -> pyobj -> Z ->
  exn + (list float * list (list float)).

Section Driver.

(** How an f-string renders a float. *)
Variable float_str : float -> string.

(** SciPy's [curve_fit]. *)
Variable curve_fit : solver.

(** The call of the solver: it sees the argument objects, and what it
    returns are two arrays of its own making. *)
Definition call_curve_fit
    (f : pyfunc) (x y p0 : loc) (maxfev : Z) : M (loc * loc) :=
  xdata <- deref x ;;
  ydata <- deref y ;;
  guess <- deref p0 ;;
  emit (EvCurveFit f xdata ydata guess maxfev) ;;
  match curve_fit f xdata ydata guess maxfev with
  | inl e => raise e
  | inr (popt, pcov) =>
      parameters <- alloc (ObjSeq popt) ;;
      covariance <- alloc (ObjMatrix pcov) ;;
      ret (parameters, covariance)
  end.

Definition alphabet : string := "abcdefghijklmnopqrstuvwxyz".

Definition warning_message
    (parameter_letter : ascii) (standard_dev value : float) : string :=
  ("Parameter " ++ String parameter_letter ""
   ++ " has standard deviation (" ++ float_str standard_dev
   ++ ") larger than its value(" ++ float_str value ++ ")")%string.

Definition relaxation_fit
    (x y : loc) (relaxation_function : pyfunc) (initial_guess : loc)
    (maxfev : Z) : M (loc * loc * loc) :=
  n <- len initial_guess ;;
  py_assert (Z.eqb n (arity relaxation_function)) ;;
  pc <- call_curve_fit relaxation_function x y initial_guess maxfev ;;
  let '(parameters, covariance) := pc in
  values <- iterate parameters ;;
  for_enumerate 0 values (fun index value =>
    c <- getitem2 covariance index index ;;
    let standard_dev := sqrt c in
    if abs value <? abs standard_dev then
      parameter_letter <- str_getitem alphabet index ;;
      warn (warning_message parameter_letter standard_dev value)
    else ret tt) ;;
  xs <- iterate x ;;
  ys <- list_comprehension xs (fun i =>
          ps <- iterate parameters ;;
          lift (call relaxation_function (i :: ps))) ;;
  y_calc <- alloc (ObjSeq ys) ;;
  ret (parameters, covariance, y_calc).

(** The defaults of the signature besides the model:
    [initial_guess=(1, 1, 1)] and [maxfev=5000]. *)
Definition default_initial_guess : pyobj := ObjSeq [1; 1; 1].
Definition default_maxfev : Z := 5000.

(** *** What a call contributes

    The loops of the driver as functions of the values they read, and the
    whole call as a function of the argument objects: the objects it
    allocates, the events it emits, and the exception it ends with, if
    any.  [relaxation_fit_outcome] relates the driver to it. *)

Fixpoint diagnose (index : nat) (values : list float) (covariance : pyobj)
    : list string * option exn :=
  match values with
  | [] => ([], None)
  | value :: rest =>
      match diagonal_entry covariance index index with
      | None => ([], Some IndexError)
      | Some c =>
          let standard_dev := sqrt c in
          if abs value <? abs standard_dev then
            match String.get index alphabet with
            | None => ([], Some IndexError)
            | Some parameter_letter =>
                let '(messages, r) := diagnose (S index) rest covariance in
                (warning_message parameter_letter standard_dev value
                   :: messages, r)
            end
          else diagnose (S index) rest covariance
      end
  end.

Fixpoint predict (f : pyfunc) (xs ps : list float) : exn + list float :=
  match xs with
  | [] => inr []
  | i :: rest =>
      match call f (i :: ps) with
      | inl e => inl e
      | inr v =>
          match predict f rest ps with
          | inl e => inl e
          | inr vs => inr (v :: vs)
          end
      end
  end.

Record outcome := {
  new_objects : list pyobj;
  new_events : list event;
  raised : option exn
}.

Definition fit_outcome
    (f : pyfunc) (xdata ydata guess : pyobj) (maxfev : Z) : outcome :=
  if Z.eqb (py_len guess) (arity f) then
    let ev := EvCurveFit f xdata ydata guess maxfev in
    match curve_fit f xdata ydata guess maxfev with
    | inl e => {| new_objects := []; new_events := [ev]; raised := Some e |}
    | inr (popt, pcov) =>
        let fitted := [ObjSeq popt; ObjMatrix pcov] in
        let '(messages, r) := diagnose 0 popt (ObjMatrix pcov) in
        let evs := ev :: map EvWarn messages in
        match r with
        | Some e =>
            {| new_objects := fitted; new_events := evs; raised := Some e |}
        | None =>
            match xdata with
            | ObjSeq xs =>
                match predict f xs popt with
                | inl e =>
                    {| new_objects := fitted; new_events := evs;
                       raised := Some e |}
                | inr ys =>
                    {| new_objects := fitted ++ [ObjSeq ys];
                       new_events := evs; raised := None |}
                end
            | ObjMatrix _ =>
                {| new_objects := fitted; new_events := evs;
                   raised := Some TypeError |}
            end
        end
    end
  else {| new_objects := []; new_events := []; raised := Some AssertionError |}.

(** The world after a call, and what the call returns in world [w]. *)
Definition extend (w : world) (o : outcome) : world :=
  {| heap := heap w ++ new_objects o; log := log w ++ new_events o |}.

Definition returned (w : world) (o : outcome) : exn + (loc * loc * loc) :=
  match raised o with
  | Some e => inl e
  | None =>
      let n := length (heap w) in inr (n, S n, S (S n))
  end.

(** *** The specification's reading of the diagnostics *)

(** Positional letter labels a, b, c, ... *)
Definition letter_label (i : nat) : ascii := ascii_of_nat (97 + i).

(** The standard error of parameter [i]: the square root of the [i]-th
    diagonal entry of the covariance matrix. *)
Definition standard_error (pcov : list (list float)) (i : nat) : float :=
  sqrt (nth i (nth i pcov []) nan).

(** [a > b] on floats. *)
Definition exceeds (a b : float) : bool := b <? a.

Definition unreliable
    (popt : list float) (pcov : list (list float)) (i : nat) : bool :=
  exceeds (abs (standard_error pcov i)) (abs (nth i popt nan)).

Definition spec_warnings
    (popt : list float) (pcov : list (list float)) : list string :=
  map (fun i => warning_message (letter_label i) (standard_error pcov i)
                                (nth i popt nan))
      (filter (unreliable popt pcov) (seq 0 (length popt))).

(** The solver's contract on what it returns for a model of arity [n]:
    [n] parameters and an [n] by [n] covariance matrix. *)
Definition well_shaped
    (n : nat) (popt : list float) (pcov : list (list float)) : Prop :=
  length popt = n /\ length pcov = n /\ Forall (fun row => length row = n) pcov.

End Driver.

(** ** Instances for closed examples

    Concrete stand-ins for the three external routines, and a small world
    with two observation series and initial guesses of length 3, 2 and 5. *)

Module Example.

Definition Z_str (z : Z) : string := NilZero.string_of_int (Z.to_int z).

(** Dropping the trailing zeros of a [k]-digit fraction, keeping one
    digit. *)
Fixpoint strip_fraction (k : nat) (frac : Z) : nat * Z :=
  match k with
  | S (S k' as k1) =>
      if Z.eqb (frac mod 10) 0 then strip_fraction k1 (frac / 10)
      else (k, frac)
  | _ => (k, frac)
  end.

Fixpoint zeros (n : nat) : string :=
  match n with
  | O => EmptyString
  | S n' => String "0" (zeros n')
  end.

(** The exact decimal expansion of a float.  Python prints the shortest
    decimal that reads back as the same float; the two agree on the
    floats of the examples below. *)
Definition decimal_str (f : float) : string :=
  match Prim2SF f with
  | S754_nan => "nan"
  | S754_infinity s => if s then "-inf" else "inf"
  | S754_zero s => if s then "-0.0" else "0.0"
  | S754_finite s m e =>
      ((if s then "-" else "") ++
       match e with
       | Zneg p =>
           let k := Pos.to_nat p in
           let scaled := (Zpos m * 5 ^ Zpos p)%Z in
           let whole := (scaled / 10 ^ Zpos p)%Z in
           let '(k', frac) := strip_fraction k (scaled mod 10 ^ Zpos p)%Z in
           let digits := Z_str frac in
           Z_str whole ++ "." ++ zeros (k' - String.length digits) ++ digits
       | _ => Z_str (Z.shiftl (Zpos m) e) ++ ".0"
       end)%string
  end.

(** A solver that has converged to [popt] with covariance [pcov]. *)
Definition converged (popt : list float) (pcov : list (list float))
    : solver :=
  fun _ _ _ _ _ => inr (popt, pcov).

(** A solver that gives up. *)
Definition diverged : solver :=
  fun _ _ _ _ _ => inl (SolverError "Optimal parameters not found").

Definition times : loc := 0%nat.
Definition signal : loc := 1%nat.
Definition guess3 : loc := 2%nat.
Definition guess2 : loc := 3%nat.
Definition guess5 : loc := 4%nat.
Definition short_signal : loc := 5%nat.

Definition observations : world := {|
  heap := [ ObjSeq [0; 1; 2; 4];
            ObjSeq [1; 1.75; 2.25; 2.75];
            ObjSeq [1; 1; 1];
            ObjSeq [1; 1];
            ObjSeq [1; 1; 1; 1; 1];
            ObjSeq [1; 1.75] ];
  log := []
|}.

(** A fit of the single-step model whose rate is well determined and
    whose amplitude and offset are not. *)
Definition popt3 : list float := [2; 0.5; 1].
Definition pcov3 : list (list float) :=
  [ [9; 0; 0];
    [0; 0.0625; 0];
    [0; 0; 4] ].

(** The same fit with small variances throughout. *)
Definition pcov3_tight : list (list float) :=
  [ [0.25; 0; 0];
    [0; 0.0625; 0];
    [0; 0; 0.25] ].

(** The world the call on [times], [signal] and [guess3] leaves. *)
Definition fitted : world :=
  snd (relaxation_fit decimal_str (converged popt3 pcov3) times signal
         (single_step exp_model) guess3 5000%Z observations).

End Example.

(** ** Notions for the properties beyond the claims *)

(** [f == 0]: either zero. *)
Definition is_zero (f : float) : bool := f =? 0.

(** What C's Annex F asks of [exp] at the zeros: [exp(+-0)] is 1. *)
Definition exp_at_zero (np_exp : float -> float) : Prop :=
  np_exp 0 = 1 /\ np_exp (-0) = 1.

(** A model of the caller's own with 27 parameters, a polynomial of degree
    26 in [x], and a world to fit it in. *)
Module Wide.

Definition polynomial : pyfunc := {|
  parameters :=
    "x"%string
      :: map (fun i => ("p" ++ Example.Z_str (Z.of_nat i))%string) (seq 0 27);
  code := fun args =>
    match args with
    | x :: ps => fold_left (fun acc p => acc * x + p) ps 0
    | [] => nan
    end
|}.

Definition diagonal (variances : list float) : list (list float) :=
  map (fun i =>
         map (fun j => if Nat.eqb i j then nth i variances 0 else 0)
             (seq 0 (length variances)))
      (seq 0 (length variances)).

Definition popt27 : list float := repeat 1 27.

(** Variance 1/4 for the first 26 parameters, 4 for the last. *)
Definition pcov27 : list (list float) := diagonal (repeat 0.25 26 ++ [4]).

(** Variance 1/4 throughout. *)
Definition pcov27_tight : list (list float) := diagonal (repeat 0.25 27).


Definition pcov3_unknown : list (list float) :=
  [ [infinity; infinity; infinity];
    [infinity; infinity; infinity];
    [infinity; infinity; infinity] ].

Definition guess27 : loc := 2%nat.

Definition observations27 : world := {|
  heap := [ ObjSeq [0; 1; 2; 4];
            ObjSeq [1; 1.75; 2.25; 2.75];
            ObjSeq (repeat 1 27) ];
  log := []
|}.

End Wide.

(** ** Facts about binary64 arithmetic *)

Module Float64Facts.
Import Float64.

Lemma is_finite_SF (f : float) : is_finite f = SF_finite (Prim2SF f).
Proof.
  unfold is_finite. rewrite classify_spec. unfold SF64classify, SFclassify.
  destruct (Prim2SF f) as [[|]|[|]| |[|] m e]; simpl; try reflexivity;
    match goal with |- context [if ?u then _ else _] => destruct u end;
    reflexivity.
Qed.

Lemma is_nan_SF (f : float) : is_nan f = SF_nan (Prim2SF f).
Proof.
  unfold is_nan. rewrite classify_spec. unfold SF64classify, SFclassify.
  destruct (Prim2SF f) as [[|]|[|]| |[|] m e]; simpl; try reflexivity;
    match goal with |- context [if ?u then _ else _] => destruct u end;
    reflexivity.
Qed.

Lemma SFcompare_refl (s : spec_float) :
  SF_nan s = false -> SFcompare s s = Some Eq.
Proof.
  destruct s as [[|]|[|]| |[|] m e]; simpl; try reflexivity; try discriminate;
    intros _; rewrite Z.compare_refl, Pos.compare_cont_refl; reflexivity.
Qed.

(** Python's [==] on floats is reflexive away from NaN. *)
Lemma eqb_refl_not_nan (f : float) : is_nan f = false -> (f =? f) = true.
Proof.
  rewrite is_nan_SF. intros H. rewrite eqb_spec. unfold SFeqb.
  rewrite SFcompare_refl by assumption. reflexivity.
Qed.

(** Zero times a finite number is a zero of either sign. *)
Lemma zero_mul_finite (t : float) :
  is_finite t = true -> exists s, Prim2SF (0 * t) = S754_zero s.
Proof.
  rewrite is_finite_SF. intros H. rewrite mul_spec.
  change (Prim2SF 0) with (S754_zero false).
  destruct (Prim2SF t) as [s|s| |s m e]; try discriminate;
    eexists; reflexivity.
Qed.

(** Adding a finite number to a zero gives a number equal to it. *)
Lemma zero_add_finite (z c : float) (s : bool) :
  Prim2SF z = S754_zero s -> is_finite c = true -> (z + c =? c) = true.
Proof.
  rewrite is_finite_SF. intros Hz Hc. rewrite eqb_spec, add_spec, Hz.
  destruct (Prim2SF c) as [sc|sc| |sc m e] eqn:E; try discriminate.
  - destruct s, sc; reflexivity.
  - unfold SF64add, SFadd, SFeqb. rewrite SFcompare_refl; reflexivity.
Qed.

Lemma nan_add (c : float) : nan + c = nan.
Proof. apply Prim2SF_inj. rewrite add_spec. reflexivity. Qed.

Lemma add_nan (c : float) : c + nan = nan.
Proof.
  apply Prim2SF_inj. rewrite add_spec.
  change (Prim2SF nan) with S754_nan.
  destruct (Prim2SF c) as [[|]|[|]| |[|] m e]; reflexivity.
Qed.

Lemma nan_neq (c : float) : (nan =? c) = false.
Proof. rewrite eqb_spec. reflexivity. Qed.

Lemma SFcompare_antisym (x y : spec_float) :
  SFcompare y x = option_map CompOpp (SFcompare x y).
Proof.
  destruct x as [sx|sx| |sx mx ex], y as [sy|sy| |sy my ey];
    try reflexivity;
    try (destruct sx; reflexivity);
    try (destruct sy; reflexivity);
    try (destruct sx, sy; reflexivity).
  cbn [SFcompare option_map].
  destruct sx, sy; try reflexivity;
    rewrite (Z.compare_antisym ex ey);
    destruct (Z.compare ex ey); cbn [CompOpp]; try reflexivity;
    rewrite (Pos.compare_cont_antisym mx my Eq); cbn [CompOpp];
    reflexivity.
Qed.

(** [<] on floats is asymmetric. *)
Lemma ltb_asym (a b : float) : (a <? b) = true -> (b <? a) = false.
Proof.
  rewrite !ltb_spec. unfold SFltb.
  rewrite (SFcompare_antisym (Prim2SF a) (Prim2SF b)).
  destruct (SFcompare (Prim2SF a) (Prim2SF b)) as [[| |]|];
    cbn; congruence.
Qed.

Lemma binary_round_aux_opp (s : bool) (m e : Z) (l : location) :
  SFopp (binary_round_aux prec emax s m e l)
  = binary_round_aux prec emax (negb s) m e l.
Proof.
  unfold binary_round_aux.
  destruct (shr_fexp prec emax m e l) as [mrs' e'].
  destruct (shr_fexp prec emax _ e' loc_Exact) as [mrs'' e''].
  destruct (shr_m mrs''); [reflexivity| |reflexivity].
  destruct (Z.leb e'' (emax - prec)); reflexivity.
Qed.

(** Python reads [-b*x] as [(-b)*x]; it is the same float as [-(b*x)]. *)
Lemma opp_mul_l (b x : float) : - b * x = - (b * x).
Proof.
  apply Prim2SF_inj. rewrite opp_spec, !mul_spec, opp_spec.
  destruct (Prim2SF b) as [sb|sb| |sb mb eb], (Prim2SF x) as [sx|sx| |sx mx ex];
    try reflexivity;
    try (destruct sb, sx; reflexivity).
  cbv beta iota delta [SF64mul SFmul]. cbn [SFopp].
  rewrite binary_round_aux_opp.
  destruct sb, sx; reflexivity.
Qed.

(** Adding a zero in the middle of a sum does not change what the sum
    compares equal to, unless the sum is a NaN. *)
Lemma add_zero_between (t z e : float) (s : bool) :
  Prim2SF z = S754_zero s ->
  is_nan (t + e) = false ->
  (t + z + e =? t + e) = true.
Proof.
  intros Hz. rewrite is_nan_SF, eqb_spec, !add_spec, Hz.
  unfold SFeqb.
  destruct (Prim2SF t) as [st|st| |st mt et] eqn:Ht.
  - destruct (Prim2SF e) as [se|se| |se me ee] eqn:He.
    + destruct st, s, se; reflexivity.
    + destruct st, s, se; reflexivity.
    + destruct st, s; discriminate.
    + intros _.
      replace (SF64add (SF64add (S754_zero st) (S754_zero s))
                       (S754_finite se me ee))
        with (S754_finite se me ee) by (destruct st, s; reflexivity).
      change (SF64add (S754_zero st) (S754_finite se me ee))
        with (S754_finite se me ee).
      rewrite SFcompare_refl; reflexivity.
  - change (SF64add (S754_infinity st) (S754_zero s))
      with (S754_infinity st).
    intros H. rewrite SFcompare_refl; [reflexivity|exact H].
  - discriminate.
  - change (SF64add (S754_finite st mt et) (S754_zero s))
      with (S754_finite st mt et).
    intros H. rewrite SFcompare_refl; [reflexivity|exact H].
Qed.

End Float64Facts.

Import Float64 Float64Facts.

Section ModelFacts.
Variable np_exp : float -> float.

Lemma single_step_overflow (x b c : float) :
  np_exp (- b * x) = infinity ->
  single_step_relaxation np_exp x 0 b c = nan.
Proof.
  intros H. unfold single_step_relaxation. rewrite H.
  change (0 * (1 - infinity)) with nan. apply nan_add.
Qed.

(** C4: the three functions are Python functions of 3, 5 and 7
    parameters besides [x], and called with [x] and a parameter vector
    they compute the closed forms of the specification: the sum, in
    order, of one term [amplitude * (1 - exp(-rate * x))] per
    amplitude/rate pair, plus the offset. *)
Theorem models_compute_closed_forms :
  (arity (single_step np_exp) = 3%Z /\
   forall x a b c,
     call (single_step np_exp) [x; a; b; c]
       = inr (a * (1 - np_exp (- (b * x))) + c) /\
     single_step_relaxation np_exp x a b c
       = spec_relaxation np_exp [(a, b)] c x) /\
  (arity (two_step np_exp) = 5%Z /\
   forall x a b c d e,
     call (two_step np_exp) [x; a; b; c; d; e]
       = inr (a * (1 - np_exp (- (b * x))) + c * (1 - np_exp (- (d * x))) + e) /\
     two_step_relaxation np_exp x a b c d e
       = spec_relaxation np_exp [(a, b); (c, d)] e x) /\
  (arity (three_step np_exp) = 7%Z /\
   forall x a b c d e f g,
     call (three_step np_exp) [x; a; b; c; d; e; f; g]
       = inr (a * (1 - np_exp (- (b * x))) + c * (1 - np_exp (- (d * x)))
              + e * (1 - np_exp (- (f * x))) + g) /\
     three_step_relaxation np_exp x a b c d e f g
       = spec_relaxation np_exp [(a, b); (c, d); (e, f)] g x).
Proof.
  repeat split; cbn [call single_step two_step three_step parameters code
                     length Nat.eqb];
    unfold single_step_relaxation, two_step_relaxation,
      three_step_relaxation;
    rewrite ?opp_mul_l; reflexivity.
Qed.

(** C6, amended: with zero amplitude the single-step model equals its
    offset, for every finite offset, wherever the relaxation term
    [1 - exp(-b*x)] is a finite float. *)
Theorem zero_amplitude_is_offset (x b c : float) :
  is_finite (1 - np_exp (- b * x)) = true ->
  is_finite c = true ->
  (single_step_relaxation np_exp x 0 b c =? c) = true.
Proof.
  intros Ht Hc. unfold single_step_relaxation.
  destruct (zero_mul_finite _ Ht) as [s Hz].
  exact (zero_add_finite _ c s Hz Hc).
Qed.

(** C7, amended: with zero second amplitude the two-step model equals
    the single-step model, wherever the second relaxation term
    [1 - exp(-d*x)] is a finite float and the single-step value is not
    a NaN. *)
Theorem zero_second_amplitude_is_single_step (x a b d e : float) :
  is_finite (1 - np_exp (- d * x)) = true ->
  is_nan (single_step_relaxation np_exp x a b e) = false ->
  (two_step_relaxation np_exp x a b 0 d e
     =? single_step_relaxation np_exp x a b e) = true.
Proof.
  intros Ht Hn. unfold two_step_relaxation, single_step_relaxation in *.
  destruct (zero_mul_finite _ Ht) as [s Hz].
  exact (add_zero_between _ _ e s Hz Hn).
Qed.

Lemma two_step_overflow (x a b d e : float) :
  np_exp (- d * x) = infinity ->
  two_step_relaxation np_exp x a b 0 d e = nan.
Proof.
  intros H. unfold two_step_relaxation. rewrite H.
  change (0 * (1 - infinity)) with nan. rewrite add_nan. apply nan_add.
Qed.

End ModelFacts.

(** ** The driver and its outcome *)

Section DriverFacts.

Variable np_exp : float -> float.
Variable float_str : float -> string.
Variable curve_fit : solver.

Local Open Scope py_scope.

Local Abbreviation fit := (relaxation_fit float_str curve_fit).
Local Abbreviation outcome_of := (fit_outcome float_str curve_fit).

Lemma world_log_nil (w : world) :
  {| heap := heap w; log := log w ++ [] |} = w.
Proof. destruct w; simpl; rewrite app_nil_r; reflexivity. Qed.

Lemma bind_unfold {A B} (m : M A) (k : A -> M B) (w : world) :
  bind m k w =
  match m w with
  | (inl e, w') => (inl e, w')
  | (inr a, w') => k a w'
  end.
Proof. reflexivity. Qed.

Lemma deref_run (l : loc) (o : pyobj) (w : world) :
  nth_error (heap w) l = Some o -> deref l w = (inr o, w).
Proof. intros H. unfold deref. rewrite H. reflexivity. Qed.

Lemma getitem2_run (l : loc) (o : pyobj) (i j : nat) (w : world) :
  nth_error (heap w) l = Some o ->
  getitem2 l i j w =
  (match diagonal_entry o i j with
   | Some v => inr v
   | None => inl IndexError
   end, w).
Proof.
  intros H. unfold getitem2. rewrite bind_unfold, (deref_run _ _ _ H).
  destruct (diagonal_entry o i j); reflexivity.
Qed.

Lemma iterate_run (l : loc) (o : pyobj) (w : world) :
  nth_error (heap w) l = Some o ->
  iterate l w =
  (match o with
   | ObjSeq items => inr items
   | ObjMatrix _ => inl TypeError
   end, w).
Proof.
  intros H. unfold iterate. rewrite bind_unfold, (deref_run _ _ _ H).
  destruct o; reflexivity.
Qed.

Lemma for_enumerate_diagnose (covariance : loc) (cov : pyobj) :
  forall values index w,
    nth_error (heap w) covariance = Some cov ->
    for_enumerate index values (fun index value =>
      c <- getitem2 covariance index index ;;
      let standard_dev := sqrt c in
      if abs value <? abs standard_dev then
        parameter_letter <- str_getitem alphabet index ;;
        warn (warning_message float_str parameter_letter standard_dev value)
      else ret tt) w =
    (match snd (diagnose float_str index values cov) with
     | Some e => inl e
     | None => inr tt
     end,
     {| heap := heap w;
        log := log w ++ map EvWarn (fst (diagnose float_str index values cov)) |}).
Proof.
  induction values as [|value rest IH]; intros index w Hcov.
  - cbn [for_enumerate diagnose fst snd map]. rewrite world_log_nil.
    reflexivity.
  - cbn [for_enumerate diagnose]. rewrite !bind_unfold.
    rewrite (getitem2_run _ _ _ _ _ Hcov).
    destruct (diagonal_entry cov index index) as [c|].
    2: { cbn [fst snd map]. rewrite world_log_nil. reflexivity. }
    cbv zeta. destruct (abs value <? abs (sqrt c)).
    + rewrite bind_unfold. unfold str_getitem.
      destruct (String.get index alphabet) as [ch|].
      2: { cbn. rewrite world_log_nil. reflexivity. }
      cbn [ret warn emit]. rewrite IH by exact Hcov.
      destruct (diagnose float_str (S index) rest cov) as [msgs r].
      cbn. rewrite <- app_assoc. reflexivity.
    + cbn [ret]. apply IH. exact Hcov.
Qed.

Lemma list_comprehension_predict (f : pyfunc) (lp : loc) (ps : list float) :
  forall xs w,
    nth_error (heap w) lp = Some (ObjSeq ps) ->
    list_comprehension xs (fun i =>
      ps <- iterate lp ;; lift (call f (i :: ps))) w =
    (predict f xs ps, w).
Proof.
  induction xs as [|i rest IH]; intros w Hp.
  - reflexivity.
  - cbn [list_comprehension predict]. rewrite !bind_unfold.
    rewrite (iterate_run _ _ _ Hp).
    destruct (call f (i :: ps)) as [e|v]; cbn [lift raise ret].
    + reflexivity.
    + rewrite bind_unfold, IH by exact Hp.
      destruct (predict f rest ps); reflexivity.
Qed.

Lemma nth_error_snoc {A} (l : list A) (a : A) :
  nth_error (l ++ [a]) (length l) = Some a.
Proof. rewrite nth_error_app2, Nat.sub_diag by lia. reflexivity. Qed.

Lemma nth_error_grow {A} (l l' : list A) (n : nat) (a : A) :
  nth_error l n = Some a -> nth_error (l ++ l') n = Some a.
Proof.
  intros H. rewrite nth_error_app1; [exact H|].
  apply nth_error_Some. congruence.
Qed.

(** The driver does what [fit_outcome] says, in every world where its
    three arguments are allocated. *)
Lemma relaxation_fit_outcome
    (x y : loc) (f : pyfunc) (p0 : loc) (maxfev : Z) (w : world)
    (xdata ydata guess : pyobj) :
  nth_error (heap w) x = Some xdata ->
  nth_error (heap w) y = Some ydata ->
  nth_error (heap w) p0 = Some guess ->
  fit x y f p0 maxfev w =
  (returned w (outcome_of f xdata ydata guess maxfev),
   extend w (outcome_of f xdata ydata guess maxfev)).
Proof.
  intros Hx Hy Hg. unfold fit, relaxation_fit, fit_outcome.
  rewrite bind_unfold. unfold len. rewrite bind_unfold, (deref_run _ _ _ Hg).
  cbn [ret]. rewrite bind_unfold.
  destruct (Z.eqb (py_len guess) (arity f)); cbn [py_assert ret raise].
  2: { unfold returned, extend. cbn. rewrite !app_nil_r. destruct w; reflexivity. }
  rewrite bind_unfold. unfold call_curve_fit.
  rewrite bind_unfold, (deref_run _ _ _ Hx).
  rewrite bind_unfold, (deref_run _ _ _ Hy).
  rewrite bind_unfold, (deref_run _ _ _ Hg).
  rewrite bind_unfold. cbn [emit].
  destruct (curve_fit f xdata ydata guess maxfev) as [e|[popt pcov]].
  { unfold returned, extend. cbn. rewrite app_nil_r. reflexivity. }
  rewrite bind_unfold. cbn [alloc heap log]. rewrite bind_unfold.
  cbn [alloc heap log ret].
  set (w2 := {| heap := (heap w ++ [ObjSeq popt]) ++ [ObjMatrix pcov];
                log := log w ++ [EvCurveFit f xdata ydata guess maxfev] |}).
  assert (Hp : nth_error (heap w2) (length (heap w)) = Some (ObjSeq popt)).
  { cbn [w2 heap]. apply nth_error_grow, nth_error_snoc. }
  assert (Hc : nth_error (heap w2) (length (heap w ++ [ObjSeq popt]))
               = Some (ObjMatrix pcov)).
  { cbn [w2 heap]. apply nth_error_snoc. }
  assert (Hx2 : nth_error (heap w2) x = Some xdata).
  { cbn [w2 heap]. apply nth_error_grow, nth_error_grow, Hx. }
  rewrite bind_unfold, (iterate_run _ _ _ Hp).
  rewrite bind_unfold, (for_enumerate_diagnose _ _ _ _ _ Hc).
  destruct (diagnose float_str 0 popt (ObjMatrix pcov)) as [msgs [e|]];
    cbn [fst snd].
  { unfold returned, extend. cbn. rewrite <- !app_assoc. reflexivity. }
  set (w3 := {| heap := heap w2; log := log w2 ++ map EvWarn msgs |}).
  assert (Hp3 : nth_error (heap w3) (length (heap w)) = Some (ObjSeq popt))
    by exact Hp.
  assert (Hx3 : nth_error (heap w3) x = Some xdata) by exact Hx2.
  rewrite bind_unfold, (iterate_run _ _ _ Hx3).
  destruct xdata as [xs|rows].
  2: { unfold returned, extend. subst w3 w2. cbn.
       rewrite <- !app_assoc. reflexivity. }
  rewrite bind_unfold, (list_comprehension_predict _ _ _ _ _ Hp3).
  destruct (predict f xs popt) as [e|ys].
  { unfold returned, extend. subst w3 w2. cbn.
    rewrite <- !app_assoc. reflexivity. }
  rewrite bind_unfold. unfold returned, extend. subst w3 w2. cbn.
  rewrite !length_app. cbn. rewrite <- !app_assoc. cbn.
  unfold ret. rewrite !Nat.add_1_r. reflexivity.
Qed.

(** *** The diagnostics loop against the specification *)

Lemma alphabet_letter (i : nat) :
  i < 26 -> String.get i alphabet = Some (letter_label i).
Proof.
  intros H. do 26 (destruct i as [|i]; [reflexivity|]). lia.
Qed.

Lemma alphabet_end (i : nat) : 26 <= i -> String.get i alphabet = None.
Proof.
  intros H. do 26 (destruct i as [|i]; [lia|]). reflexivity.
Qed.

Lemma well_shaped_entry (n : nat) (popt : list float)
    (pcov : list (list float)) (i : nat) :
  well_shaped n popt pcov -> i < n ->
  diagonal_entry (ObjMatrix pcov) i i = Some (nth i (nth i pcov []) nan).
Proof.
  intros (_ & Hrows & Hcols) Hi. cbn [diagonal_entry].
  assert (Hr : i < length pcov) by lia.
  rewrite (nth_error_nth' pcov [] Hr).
  apply nth_error_nth'.
  rewrite Forall_forall in Hcols. rewrite (Hcols (nth i pcov [])); [exact Hi|].
  apply nth_In. exact Hr.
Qed.

Lemma diagnose_spec (n : nat) (popt : list float) (pcov : list (list float)) :
  well_shaped n popt pcov -> n <= 26 ->
  forall values pre,
    popt = pre ++ values ->
    diagnose float_str (length pre) values (ObjMatrix pcov) =
    (map (fun i => warning_message float_str (letter_label i)
                     (standard_error pcov i) (nth i popt nan))
         (filter (unreliable popt pcov) (seq (length pre) (length values))),
     None).
Proof.
  intros Hshape Hn.
  induction values as [|value rest IH]; intros pre Hpre.
  - reflexivity.
  - assert (Hlen : length pre < n).
    { destruct Hshape as (Hl & _). rewrite <- Hl, Hpre, length_app.
      cbn [length]. lia. }
    assert (Hv : nth (length pre) popt nan = value).
    { rewrite Hpre, app_nth2, Nat.sub_diag by lia. reflexivity. }
    cbn [diagnose length seq filter].
    rewrite (well_shaped_entry _ _ _ _ Hshape Hlen).
    unfold unreliable at 1, exceeds. rewrite Hv.
    fold (standard_error pcov (length pre)).
    specialize (IH (pre ++ [value])).
    rewrite length_app, Nat.add_1_r in IH.
    rewrite IH by (rewrite <- app_assoc; exact Hpre).
    destruct (abs value <? abs (standard_error pcov (length pre))).
    + rewrite alphabet_letter by lia. cbn [map]. rewrite Hv. reflexivity.
    + reflexivity.
Qed.

(** Past the 26 letters a flagged parameter has no label: the lookup in
    the alphabet raises. *)
Lemma diagnose_past_z (value c : float) (rest : list float)
    (pcov : list (list float)) (index : nat) :
  26 <= index ->
  diagonal_entry (ObjMatrix pcov) index index = Some c ->
  (abs value <? abs (sqrt c)) = true ->
  diagnose float_str index (value :: rest) (ObjMatrix pcov)
    = ([], Some IndexError).
Proof.
  intros Hi Hc Hlt. cbn [diagnose]. rewrite Hc. cbv zeta. rewrite Hlt.
  rewrite alphabet_end by exact Hi. reflexivity.
Qed.

Lemma predict_map (f : pyfunc) (ps : list float) :
  S (length ps) = length (parameters f) ->
  forall xs, predict f xs ps = inr (map (fun i => code f (i :: ps)) xs).
Proof.
  intros Hlen. induction xs as [|i rest IH].
  - reflexivity.
  - cbn [predict map]. unfold call. cbn [length].
    rewrite Hlen, Nat.eqb_refl, IH. reflexivity.
Qed.

Lemma predict_inv (f : pyfunc) (ps : list float) :
  forall xs ys,
    predict f xs ps = inr ys ->
    ys = map (fun i => code f (i :: ps)) xs /\
    forall i, In i xs -> call f (i :: ps) = inr (code f (i :: ps)).
Proof.
  induction xs as [|i rest IH]; intros ys H.
  - cbn in H. injection H as <-. split; [reflexivity|]. intros i [].
  - cbn [predict] in H.
    destruct (call f (i :: ps)) as [e|v] eqn:Hcall; [discriminate|].
    destruct (predict f rest ps) as [e|vs] eqn:Hrest; [discriminate|].
    injection H as <-. destruct (IH vs eq_refl) as [-> Hall].
    assert (Hv : call f (i :: ps) = inr (code f (i :: ps))).
    { unfold call in *. destruct (Nat.eqb _ _); [reflexivity|discriminate]. }
    rewrite Hv in Hcall. injection Hcall as <-.
    split; [reflexivity|]. intros j [<-|Hj]; [exact Hv|apply Hall, Hj].
Qed.

(** *** The cases of [fit_outcome] *)

Section Outcome.
Variables (f : pyfunc) (xdata ydata guess : pyobj) (maxfev : Z).

Local Abbreviation o := (outcome_of f xdata ydata guess maxfev).
Local Abbreviation ev := (EvCurveFit f xdata ydata guess maxfev).

Lemma outcome_mismatch :
  py_len guess <> arity f ->
  o = {| new_objects := []; new_events := [];
         raised := Some AssertionError |}.
Proof.
  intros H. unfold fit_outcome.
  destruct (Z.eqb_spec (py_len guess) (arity f)); [contradiction|reflexivity].
Qed.

Lemma outcome_events :
  py_len guess = arity f ->
  exists messages, new_events o = ev :: map EvWarn messages.
Proof.
  intros H. unfold fit_outcome. rewrite (proj2 (Z.eqb_eq _ _) H).
  destruct (curve_fit f xdata ydata guess maxfev) as [e|[popt pcov]].
  - exists []. reflexivity.
  - destruct (diagnose float_str 0 popt (ObjMatrix pcov)) as [msgs [e|]].
    + exists msgs. reflexivity.
    + exists msgs. destruct xdata as [xs|rows]; [|reflexivity].
      destruct (predict f xs popt); reflexivity.
Qed.

Lemma outcome_solver_raises (e : exn) :
  py_len guess = arity f ->
  curve_fit f xdata ydata guess maxfev = inl e ->
  o = {| new_objects := []; new_events := [ev]; raised := Some e |}.
Proof.
  intros H Hs. unfold fit_outcome.
  rewrite (proj2 (Z.eqb_eq _ _) H), Hs. reflexivity.
Qed.

Lemma outcome_warnings (n : nat) popt pcov :
  py_len guess = arity f ->
  curve_fit f xdata ydata guess maxfev = inr (popt, pcov) ->
  well_shaped n popt pcov -> n <= 26 ->
  new_events o = ev :: map EvWarn (spec_warnings float_str popt pcov).
Proof.
  intros H Hs Hshape Hn. unfold fit_outcome.
  rewrite (proj2 (Z.eqb_eq _ _) H), Hs.
  pose proof (diagnose_spec n popt pcov Hshape Hn popt [] eq_refl) as Hd.
  cbn [length] in Hd. rewrite Hd. fold (spec_warnings float_str popt pcov).
  destruct xdata as [xs|rows]; [|reflexivity].
  destruct (predict f xs popt); reflexivity.
Qed.

Lemma outcome_success_inv :
  raised o = None ->
  exists popt pcov xs ys,
    py_len guess = arity f /\
    curve_fit f xdata ydata guess maxfev = inr (popt, pcov) /\
    xdata = ObjSeq xs /\
    predict f xs popt = inr ys /\
    new_objects o = [ObjSeq popt; ObjMatrix pcov; ObjSeq ys].
Proof.
  unfold fit_outcome.
  destruct (Z.eqb_spec (py_len guess) (arity f)) as [H|H]; [|discriminate].
  destruct (curve_fit f xdata ydata guess maxfev) as [e|[popt pcov]];
    [discriminate|].
  destruct (diagnose float_str 0 popt (ObjMatrix pcov)) as [msgs [e|]];
    [discriminate|].
  destruct xdata as [xs|rows]; [|discriminate].
  destruct (predict f xs popt) as [e|ys] eqn:Hp; [discriminate|].
  intros _. exists popt, pcov, xs, ys. repeat split; assumption.
Qed.

End Outcome.

Lemma outcome_success (f : pyfunc) (xs : list float) (ydata guess : pyobj)
    (maxfev : Z) (n : nat) popt pcov :
  py_len guess = arity f ->
  curve_fit f (ObjSeq xs) ydata guess maxfev = inr (popt, pcov) ->
  well_shaped n popt pcov -> n <= 26 -> Z.of_nat n = arity f ->
  outcome_of f (ObjSeq xs) ydata guess maxfev =
  {| new_objects :=
       [ObjSeq popt; ObjMatrix pcov;
        ObjSeq (map (fun i => code f (i :: popt)) xs)];
     new_events :=
       EvCurveFit f (ObjSeq xs) ydata guess maxfev
         :: map EvWarn (spec_warnings float_str popt pcov);
     raised := None |}.
Proof.
  intros H Hs Hshape Hn Har. unfold fit_outcome.
  rewrite (proj2 (Z.eqb_eq _ _) H), Hs.
  pose proof (diagnose_spec n popt pcov Hshape Hn popt [] eq_refl) as Hd.
  cbn [length] in Hd. rewrite Hd. fold (spec_warnings float_str popt pcov).
  rewrite predict_map; [reflexivity|].
  destruct Hshape as (Hl & _). unfold arity in Har. lia.
Qed.

Lemma nth_error_fresh {A} (l news : list A) (k : nat) :
  nth_error (l ++ news) (k + length l) = nth_error news k.
Proof.
  rewrite nth_error_app2 by lia. f_equal. lia.
Qed.

Lemma spec_warnings_In (popt : list float) (pcov : list (list float))
    (message : string) :
  In message (spec_warnings float_str popt pcov) <->
  exists i, i < length popt /\
    exceeds (abs (standard_error pcov i)) (abs (nth i popt nan)) = true /\
    message = warning_message float_str (letter_label i)
                (standard_error pcov i) (nth i popt nan).
Proof.
  unfold spec_warnings. rewrite in_map_iff. split.
  - intros (i & <- & Hi). apply filter_In in Hi as [Hi Hu].
    apply in_seq in Hi. exists i. repeat split; [lia|exact Hu].
  - intros (i & Hi & Hu & ->). exists i. split; [reflexivity|].
    apply filter_In. split; [apply in_seq; lia|exact Hu].
Qed.

Lemma spec_warnings_none (popt : list float) (pcov : list (list float)) :
  (forall i, i < length popt ->
     exceeds (abs (nth i popt nan)) (abs (standard_error pcov i)) = true) ->
  spec_warnings float_str popt pcov = [].
Proof.
  intros H. unfold spec_warnings.
  replace (filter (unreliable popt pcov) (seq 0 (length popt))) with (@nil nat);
    [reflexivity|].
  symmetry. rewrite <- (filter_false (seq 0 (length popt))).
  apply filter_ext_in. intros i Hi. apply in_seq in Hi.
  unfold unreliable, exceeds. apply ltb_asym, H. lia.
Qed.

Lemma model_parameter_names (m : pyfunc) (i : nat) (name : string) :
  In m [single_step np_exp; two_step np_exp; three_step np_exp] ->
  nth_error (parameters m) (S i) = Some name ->
  name = String (letter_label i) EmptyString.
Proof.
  intros [<-|[<-|[<-|[]]]]; cbn [parameters single_step two_step three_step];
    do 8 (try (destruct i as [|i]; [intros [= <-]; reflexivity|]));
    destruct i; discriminate.
Qed.

(** *** The claims about the driver *)

Section Call.
Variables (x y : loc) (f : pyfunc) (p0 : loc) (maxfev : Z) (w : world).
Variables (xdata ydata guess : pyobj).
Hypothesis Hx : nth_error (heap w) x = Some xdata.
Hypothesis Hy : nth_error (heap w) y = Some ydata.
Hypothesis Hg : nth_error (heap w) p0 = Some guess.

Local Abbreviation ev := (EvCurveFit f xdata ydata guess maxfev).

(** C1: when the length of the initial guess differs from the model's
    arity the call raises [AssertionError] and leaves the world as it
    was, so the solver has not been called; when they agree the first
    thing the call does to the world is the call of the solver, with
    the arguments as given. *)
Theorem arity_check_guards_solver :
  (py_len guess <> arity f ->
   fit x y f p0 maxfev w = (inl AssertionError, w)) /\
  (py_len guess = arity f ->
   exists r w' messages,
     fit x y f p0 maxfev w = (r, w') /\
     log w' = log w ++ ev :: map EvWarn messages).
Proof.
  rewrite (relaxation_fit_outcome _ _ _ _ _ _ _ _ _ Hx Hy Hg). split.
  - intros H. rewrite (outcome_mismatch _ _ _ _ _ H).
    unfold returned, extend. cbn. rewrite !app_nil_r.
    destruct w; reflexivity.
  - intros H. destruct (outcome_events f xdata ydata guess maxfev H)
      as (msgs & Hev).
    eexists _, _, msgs. split; [reflexivity|].
    cbn [extend log]. rewrite Hev. reflexivity.
Qed.

(** C2: with a solver that returns [n] parameters and an [n] by [n]
    covariance matrix, [n <= 26], the warnings of a call are, in order,
    those of [spec_warnings]: one for each index whose standard error,
    the square root of the diagonal entry, exceeds the parameter in
    magnitude, worded as [warning_message] with the letter of the
    index; there is none when every parameter exceeds its standard
    error; and the letters are the parameter names of the three
    models. *)
Theorem unreliable_parameters_are_warned
    (n : nat) (popt : list float) (pcov : list (list float)) :
  py_len guess = arity f ->
  curve_fit f xdata ydata guess maxfev = inr (popt, pcov) ->
  well_shaped n popt pcov -> n <= 26 ->
  (exists r w',
     fit x y f p0 maxfev w = (r, w') /\
     log w' = log w ++ ev :: map EvWarn (spec_warnings float_str popt pcov)) /\
  (forall message,
     In message (spec_warnings float_str popt pcov) <->
     exists i, i < n /\
       exceeds (abs (standard_error pcov i)) (abs (nth i popt nan)) = true /\
       message =
         ("Parameter " ++ String (letter_label i) ""
          ++ " has standard deviation (" ++ float_str (standard_error pcov i)
          ++ ") larger than its value(" ++ float_str (nth i popt nan)
          ++ ")")%string) /\
  ((forall i, i < n ->
      exceeds (abs (nth i popt nan)) (abs (standard_error pcov i)) = true) ->
   spec_warnings float_str popt pcov = []) /\
  (forall m i name,
     In m [single_step np_exp; two_step np_exp; three_step np_exp] ->
     nth_error (parameters m) (S i) = Some name ->
     name = String (letter_label i) "").
Proof.
  intros H Hs Hshape Hn.
  assert (Hlen : length popt = n) by apply Hshape.
  split; [|split; [|split]].
  - rewrite (relaxation_fit_outcome _ _ _ _ _ _ _ _ _ Hx Hy Hg).
    eexists _, _. split; [reflexivity|]. cbn [extend log].
    rewrite (outcome_warnings _ _ _ _ _ n popt pcov H Hs Hshape Hn).
    reflexivity.
  - intros message. rewrite <- Hlen. apply spec_warnings_In.
  - rewrite <- Hlen. apply spec_warnings_none.
  - apply model_parameter_names.
Qed.

(** C3: a call that returns, returns references to the parameter
    vector and covariance matrix of the solver and to a sequence as
    long as [x] whose [i]-th entry is the model called on [x[i]] and
    the fitted parameters. *)
Theorem predicted_curve
    (xs : list float) (parameters covariance y_calc : loc) (w' : world) :
  xdata = ObjSeq xs ->
  fit x y f p0 maxfev w = (inr (parameters, covariance, y_calc), w') ->
  exists popt pcov ys,
    curve_fit f xdata ydata guess maxfev = inr (popt, pcov) /\
    nth_error (heap w') parameters = Some (ObjSeq popt) /\
    nth_error (heap w') covariance = Some (ObjMatrix pcov) /\
    nth_error (heap w') y_calc = Some (ObjSeq ys) /\
    length ys = length xs /\
    forall i xi,
      nth_error xs i = Some xi ->
      exists v, call f (xi :: popt) = inr v /\ nth_error ys i = Some v.
Proof.
  intros Hxs. rewrite (relaxation_fit_outcome _ _ _ _ _ _ _ _ _ Hx Hy Hg).
  intros Hfit. injection Hfit as Hr Hw. unfold returned in Hr.
  destruct (raised (outcome_of f xdata ydata guess maxfev)) as [e|] eqn:Hraised;
    [discriminate|].
  destruct (outcome_success_inv _ _ _ _ _ Hraised)
    as (popt & pcov & xs' & ys & _ & Hs & Hxs' & Hp & Hnew).
  assert (xs' = xs) by congruence. subst xs'.
  destruct (predict_inv _ _ _ _ Hp) as (Hys & Hcalls).
  injection Hr as <- <- <-. subst w'. cbn [extend heap]. rewrite Hnew.
  exists popt, pcov, ys. split; [exact Hs|].
  split; [exact (nth_error_fresh (heap w) _ 0)|].
  split; [exact (nth_error_fresh (heap w) _ 1)|].
  split; [exact (nth_error_fresh (heap w) _ 2)|].
  split; [rewrite Hys; apply length_map|].
  intros i xi Hi. exists (code f (xi :: popt)). split.
  - apply Hcalls. eapply nth_error_In, Hi.
  - rewrite Hys.
    exact (map_nth_error (fun i => code f (i :: popt)) i xs Hi).
Qed.

(** C5: the parameter vector and covariance matrix a call returns are
    the solver's, as the solver returned them; and when the solver has
    returned [n] parameters and an [n] by [n] covariance for a model of
    arity [n <= 26] the call returns, whatever warnings it emitted. *)
Theorem warnings_leave_result_alone
    (popt : list float) (pcov : list (list float)) :
  curve_fit f xdata ydata guess maxfev = inr (popt, pcov) ->
  (forall parameters covariance y_calc w',
     fit x y f p0 maxfev w = (inr (parameters, covariance, y_calc), w') ->
     nth_error (heap w') parameters = Some (ObjSeq popt) /\
     nth_error (heap w') covariance = Some (ObjMatrix pcov)) /\
  (forall n xs,
     py_len guess = arity f -> xdata = ObjSeq xs ->
     well_shaped n popt pcov -> Z.of_nat n = arity f -> n <= 26 ->
     exists parameters covariance y_calc w',
       fit x y f p0 maxfev w = (inr (parameters, covariance, y_calc), w') /\
       nth_error (heap w') parameters = Some (ObjSeq popt) /\
       nth_error (heap w') covariance = Some (ObjMatrix pcov) /\
       log w' =
         log w ++ ev :: map EvWarn (spec_warnings float_str popt pcov)).
Proof.
  intros Hs. rewrite (relaxation_fit_outcome _ _ _ _ _ _ _ _ _ Hx Hy Hg).
  split.
  - intros lp lc ly w' Hfit. injection Hfit as Hr Hw. unfold returned in Hr.
    destruct (raised (outcome_of f xdata ydata guess maxfev)) as [e|] eqn:Hraised;
      [discriminate|].
    destruct (outcome_success_inv _ _ _ _ _ Hraised)
      as (popt' & pcov' & xs & ys & _ & Hs' & _ & _ & Hnew).
    rewrite Hs in Hs'. injection Hs' as <- <-.
    injection Hr as <- <- <-. subst w'. cbn [extend heap]. rewrite Hnew.
    split; [exact (nth_error_fresh (heap w) _ 0)|].
    exact (nth_error_fresh (heap w) _ 1).
  - intros n xs H Hxs Hshape Har Hn. subst xdata.
    rewrite (outcome_success _ _ _ _ _ n popt pcov H Hs Hshape Hn Har).
    eexists _, _, _, _. split; [reflexivity|]. cbn [extend heap log].
    split; [exact (nth_error_fresh (heap w) _ 0)|].
    split; [exact (nth_error_fresh (heap w) _ 1)|reflexivity].
Qed.

(** C8: whatever the initial guess, one of the three models, of
    arities 3, 5 and 7, has another arity than the guess's length, and
    the call with that model raises [AssertionError]; the default
    guess [(1, 1, 1)] fits the single-step model only. *)
Theorem no_guess_fits_every_model :
  (exists m,
     In m [single_step np_exp; two_step np_exp; three_step np_exp] /\
     py_len guess <> arity m /\
     fit x y m p0 maxfev w = (inl AssertionError, w)) /\
  (arity (single_step np_exp) = 3 /\ arity (two_step np_exp) = 5 /\
   arity (three_step np_exp) = 7)%Z /\
  (py_len default_initial_guess = arity (single_step np_exp) /\
   py_len default_initial_guess <> arity (two_step np_exp) /\
   py_len default_initial_guess <> arity (three_step np_exp)).
Proof.
  split; [|split; [repeat split|repeat split; discriminate]].
  assert (Hrej : forall m, py_len guess <> arity m ->
            fit x y m p0 maxfev w = (inl AssertionError, w)).
  { intros m H.
    rewrite (relaxation_fit_outcome _ _ _ _ _ _ _ _ _ Hx Hy Hg).
    rewrite (outcome_mismatch _ _ _ _ _ H).
    unfold returned, extend. cbn. rewrite !app_nil_r.
    destruct w; reflexivity. }
  destruct (Z.eq_dec (py_len guess) 3) as [H3|H3].
  - exists (two_step np_exp).
    assert (H : py_len guess <> arity (two_step np_exp))
      by (rewrite H3; discriminate).
    split; [cbn; auto|]. split; [exact H|apply Hrej, H].
  - exists (single_step np_exp).
    split; [cbn; auto|]. split; [exact H3|apply Hrej, H3].
Qed.

(** C9: nothing but the length of the guess is checked before the
    solver is called: whatever [x] and [y] are, a guess as long as the
    model's arity gets them to the solver as they are; an exception of
    the solver is the exception of the call; and when the solver
    returns [n] parameters and an [n] by [n] covariance for a model of
    arity [n <= 26], the call returns. *)
Theorem only_the_solver_checks_the_data :
  py_len guess = arity f ->
  exists r w' messages,
    fit x y f p0 maxfev w = (r, w') /\
    log w' = log w ++ ev :: map EvWarn messages /\
    (forall e,
       curve_fit f xdata ydata guess maxfev = inl e ->
       r = inl e /\ messages = [] /\ heap w' = heap w) /\
    (forall popt pcov n xs,
       curve_fit f xdata ydata guess maxfev = inr (popt, pcov) ->
       xdata = ObjSeq xs ->
       well_shaped n popt pcov -> Z.of_nat n = arity f -> n <= 26 ->
       exists result, r = inr result).
Proof.
  intros H. rewrite (relaxation_fit_outcome _ _ _ _ _ _ _ _ _ Hx Hy Hg).
  destruct (curve_fit f xdata ydata guess maxfev) as [e|[popt pcov]] eqn:Hs.
  - rewrite (outcome_solver_raises _ _ _ _ _ e H Hs).
    eexists _, _, []. split; [reflexivity|]. split; [reflexivity|].
    split; [|discriminate].
    intros e' [= <-]. unfold returned, extend. cbn.
    rewrite app_nil_r. auto.
  - destruct (outcome_events f xdata ydata guess maxfev H) as (msgs & Hev).
    eexists _, _, msgs. split; [reflexivity|].
    split; [cbn [extend log]; rewrite Hev; reflexivity|].
    split; [discriminate|].
    intros popt' pcov' n xs [= <- <-] Hxs Hshape Har Hn. subst xdata.
    rewrite (outcome_success _ _ _ _ _ n popt pcov H Hs Hshape Hn Har).
    eexists. reflexivity.
Qed.

End Call.

Lemma outcome_objects (f : pyfunc) (xdata ydata guess : pyobj) (maxfev : Z) :
  raised (outcome_of f xdata ydata guess maxfev) = None ->
  length (new_objects (outcome_of f xdata ydata guess maxfev)) = 3%nat.
Proof.
  intros H. destruct (outcome_success_inv _ _ _ _ _ H)
    as (popt & pcov & xs & ys & _ & _ & _ & _ & ->).
  reflexivity.
Qed.

Lemma outcome_only_warns (f : pyfunc) (xdata ydata guess : pyobj) (maxfev : Z) :
  new_events (outcome_of f xdata ydata guess maxfev) = [] \/
  exists messages,
    new_events (outcome_of f xdata ydata guess maxfev) =
    EvCurveFit f xdata ydata guess maxfev :: map EvWarn messages.
Proof.
  destruct (Z.eq_dec (py_len guess) (arity f)) as [H|H].
  - right. apply outcome_events, H.
  - left. rewrite (outcome_mismatch _ _ _ _ _ H). reflexivity.
Qed.

(** C10: what a call adds to the world is fixed by the objects it is
    given: in every world it appends the same objects to the store and
    the same events to the log, the events being the call of the solver
    and warnings; every object of the store before the call, [x], [y]
    and [initial_guess] among them, is the same after it; and the three
    references a call returns are distinct, unallocated before the call
    and allocated after it. *)
Theorem calls_are_independent
    (f : pyfunc) (xdata ydata guess : pyobj) (maxfev : Z) :
  exists (news : list pyobj) (evs : list event) (failure : option exn),
    (evs = [] \/
     exists messages,
       evs = EvCurveFit f xdata ydata guess maxfev :: map EvWarn messages) /\
    forall (w : world) (x y p0 : loc),
      nth_error (heap w) x = Some xdata ->
      nth_error (heap w) y = Some ydata ->
      nth_error (heap w) p0 = Some guess ->
      exists r w',
        fit x y f p0 maxfev w = (r, w') /\
        heap w' = heap w ++ news /\
        log w' = log w ++ evs /\
        (forall l o,
           nth_error (heap w) l = Some o -> nth_error (heap w') l = Some o) /\
        (nth_error (heap w') x = Some xdata /\
         nth_error (heap w') y = Some ydata /\
         nth_error (heap w') p0 = Some guess) /\
        match failure with
        | Some e => r = inl e
        | None =>
            exists parameters covariance y_calc,
              r = inr (parameters, covariance, y_calc) /\
              NoDup [parameters; covariance; y_calc] /\
              forall l, In l [parameters; covariance; y_calc] ->
                nth_error (heap w) l = None /\ nth_error (heap w') l <> None
        end.
Proof.
  exists (new_objects (outcome_of f xdata ydata guess maxfev)),
         (new_events (outcome_of f xdata ydata guess maxfev)),
         (raised (outcome_of f xdata ydata guess maxfev)).
  split; [apply outcome_only_warns|].
  intros w x y p0 Hx Hy Hg.
  rewrite (relaxation_fit_outcome _ _ _ _ _ _ _ _ _ Hx Hy Hg).
  eexists _, _. split; [reflexivity|].
  split; [reflexivity|]. split; [reflexivity|].
  split; [intros l o; apply nth_error_grow|].
  split; [repeat split; apply nth_error_grow; assumption|].
  unfold returned.
  destruct (raised (outcome_of f xdata ydata guess maxfev)) eqn:Hraised;
    [reflexivity|].
  pose proof (outcome_objects _ _ _ _ _ Hraised) as Hlen.
  eexists _, _, _. split; [reflexivity|]. split.
  - repeat constructor; cbn; lia.
  - intros l Hl. split.
    + apply nth_error_None. cbn in Hl. lia.
    + apply nth_error_Some. cbn [extend heap]. rewrite length_app, Hlen.
      cbn in Hl. lia.
Qed.

End DriverFacts.

(** ** Closed instances *)

Section Instances.

Import Example.

Local Abbreviation fit3 := (relaxation_fit decimal_str (converged popt3 pcov3)).
Local Abbreviation single := (single_step exp_model).
Local Abbreviation double := (two_step exp_model).

(** A guess of length 2 for the single-step model is refused and the
    world is untouched; a guess of length 3 reaches the solver. *)
Lemma arity_check_guards_solver_witness :
  fit3 times signal single guess2 5000%Z observations
    = (inl AssertionError, observations) /\
  exists r w' messages,
    fit3 times signal single guess3 5000%Z observations = (r, w') /\
    log w' =
      log observations
      ++ EvCurveFit single (ObjSeq [0; 1; 2; 4]) (ObjSeq [1; 1.75; 2.25; 2.75])
           (ObjSeq [1; 1; 1]) 5000
         :: map EvWarn messages.
Proof.
  split.
  - apply (proj1 (arity_check_guards_solver decimal_str (converged popt3 pcov3)
                    times signal single guess2 5000%Z observations
                    _ _ _ eq_refl eq_refl eq_refl)).
    discriminate.
  - apply (proj2 (arity_check_guards_solver decimal_str (converged popt3 pcov3)
                    times signal single guess3 5000%Z observations
                    _ _ _ eq_refl eq_refl eq_refl)).
    reflexivity.
Defined.

Lemma well_shaped3 : well_shaped 3 popt3 pcov3.
Proof. repeat constructor. Qed.

Lemma well_shaped3_tight : well_shaped 3 popt3 pcov3_tight.
Proof. repeat constructor. Qed.

Lemma spec_warnings3 :
  spec_warnings decimal_str popt3 pcov3 =
  [ "Parameter a has standard deviation (3.0) larger than its value(2.0)";
    "Parameter c has standard deviation (2.0) larger than its value(1.0)"
  ]%string.
Proof. vm_compute. reflexivity. Qed.

(** With variances 9, 1/16 and 4 for the parameters 2, 1/2 and 1, the
    call warns about a and c; with variances 1/4, 1/16 and 1/4 there is
    nothing to warn about. *)
Lemma unreliable_parameters_are_warned_witness :
  (exists r w',
     fit3 times signal single guess3 5000%Z observations = (r, w') /\
     log w' =
       log observations
       ++ EvCurveFit single (ObjSeq [0; 1; 2; 4]) (ObjSeq [1; 1.75; 2.25; 2.75])
            (ObjSeq [1; 1; 1]) 5000
          :: map EvWarn (spec_warnings decimal_str popt3 pcov3)) /\
  spec_warnings decimal_str popt3 pcov3_tight = [].
Proof.
  split.
  - apply (unreliable_parameters_are_warned exp_model decimal_str
             (converged popt3 pcov3) times signal single guess3 5000%Z
             observations _ _ _ eq_refl eq_refl eq_refl 3 popt3 pcov3
             eq_refl eq_refl well_shaped3).
    lia.
  - apply (unreliable_parameters_are_warned exp_model decimal_str
             (converged popt3 pcov3_tight) times signal single guess3 5000%Z
             observations _ _ _ eq_refl eq_refl eq_refl 3 popt3 pcov3_tight
             eq_refl eq_refl well_shaped3_tight).
    + lia.
    + intros i Hi. do 3 (destruct i as [|i]; [reflexivity|]). lia.
Defined.

Lemma fit3_returns :
  fit3 times signal single guess3 5000%Z observations
    = (inr (6, 7, 8)%nat, fitted).
Proof.
  unfold fitted.
  rewrite (surjective_pairing (fit3 times signal single guess3 5000%Z observations))
    at 1.
  f_equal.
Qed.

(** The call on four times returns four predictions. *)
Lemma predicted_curve_witness :
  exists popt pcov ys,
    converged popt3 pcov3 single (ObjSeq [0; 1; 2; 4])
      (ObjSeq [1; 1.75; 2.25; 2.75]) (ObjSeq [1; 1; 1]) 5000%Z
      = inr (popt, pcov) /\
    nth_error (heap fitted) 6%nat = Some (ObjSeq popt) /\
    nth_error (heap fitted) 7%nat = Some (ObjMatrix pcov) /\
    nth_error (heap fitted) 8%nat = Some (ObjSeq ys) /\
    length ys = 4%nat /\
    forall i xi,
      nth_error [0; 1; 2; 4] i = Some xi ->
      exists v, call single (xi :: popt) = inr v /\ nth_error ys i = Some v.
Proof.
  exact (predicted_curve decimal_str (converged popt3 pcov3)
           times signal single guess3 5000%Z observations
           _ _ _ eq_refl eq_refl eq_refl [0; 1; 2; 4] 6%nat 7%nat 8%nat fitted
           eq_refl fit3_returns).
Defined.

(** The fit that warns about a and c returns the solver's arrays. *)
Lemma warnings_leave_result_alone_witness :
  exists parameters covariance y_calc w',
    fit3 times signal single guess3 5000%Z observations
      = (inr (parameters, covariance, y_calc), w') /\
    nth_error (heap w') parameters = Some (ObjSeq popt3) /\
    nth_error (heap w') covariance = Some (ObjMatrix pcov3) /\
    log w' =
      log observations
      ++ EvCurveFit single (ObjSeq [0; 1; 2; 4]) (ObjSeq [1; 1.75; 2.25; 2.75])
           (ObjSeq [1; 1; 1]) 5000
         :: map EvWarn (spec_warnings decimal_str popt3 pcov3).
Proof.
  apply (proj2 (warnings_leave_result_alone decimal_str (converged popt3 pcov3)
                  times signal single guess3 5000%Z observations
                  _ _ _ eq_refl eq_refl eq_refl popt3 pcov3 eq_refl)
               3%nat [0; 1; 2; 4] eq_refl eq_refl well_shaped3 eq_refl).
  lia.
Defined.

(** The guess of length 3 is refused by some model. *)
Lemma no_guess_fits_every_model_witness :
  exists m,
    In m [single; double; three_step exp_model] /\
    py_len (ObjSeq [1; 1; 1]) <> arity m /\
    fit3 times signal m guess3 5000%Z observations
      = (inl AssertionError, observations).
Proof.
  exact (proj1 (no_guess_fits_every_model exp_model decimal_str
                  (converged popt3 pcov3) times signal guess3 5000%Z observations
                  _ _ _ eq_refl eq_refl eq_refl)).
Defined.

(** Four times, two signal values and the five-parameter model: the call
    reaches the solver, whose failure is the failure of the call. *)
Lemma only_the_solver_checks_the_data_witness :
  exists r w' messages,
    relaxation_fit decimal_str diverged times short_signal double guess5
      5000%Z observations = (r, w') /\
    log w' =
      log observations
      ++ EvCurveFit double (ObjSeq [0; 1; 2; 4]) (ObjSeq [1; 1.75])
           (ObjSeq [1; 1; 1; 1; 1]) 5000
         :: map EvWarn messages /\
    (forall e,
       diverged double (ObjSeq [0; 1; 2; 4]) (ObjSeq [1; 1.75])
         (ObjSeq [1; 1; 1; 1; 1]) 5000%Z = inl e ->
       r = inl e /\ messages = [] /\ heap w' = heap observations) /\
    (forall popt pcov n xs,
       diverged double (ObjSeq [0; 1; 2; 4]) (ObjSeq [1; 1.75])
         (ObjSeq [1; 1; 1; 1; 1]) 5000%Z = inr (popt, pcov) ->
       ObjSeq [0; 1; 2; 4] = ObjSeq xs ->
       well_shaped n popt pcov -> Z.of_nat n = arity double -> n <= 26 ->
       exists result, r = inr result).
Proof.
  exact (only_the_solver_checks_the_data decimal_str diverged
           times short_signal double guess5 5000%Z observations
           _ _ _ eq_refl eq_refl eq_refl eq_refl).
Defined.

(** In the world of the examples and in the world a first call leaves,
    a call keeps every object there was. *)
Lemma calls_are_independent_witness :
  exists news evs,
    (exists r w',
       fit3 times signal single guess3 5000%Z observations = (r, w') /\
       heap w' = heap observations ++ news /\
       log w' = log observations ++ evs) /\
    (exists r w',
       fit3 times signal single guess3 5000%Z fitted = (r, w') /\
       heap w' = heap fitted ++ news /\
       log w' = log fitted ++ evs).
Proof.
  destruct (calls_are_independent decimal_str (converged popt3 pcov3)
              single (ObjSeq [0; 1; 2; 4]) (ObjSeq [1; 1.75; 2.25; 2.75])
              (ObjSeq [1; 1; 1]) 5000%Z)
    as (news & evs & failure & _ & H).
  exists news, evs. split.
  - destruct (H observations times signal guess3 eq_refl eq_refl eq_refl)
      as (r & w' & Hfit & Hheap & Hlog & _).
    exists r, w'. auto.
  - destruct (H fitted times signal guess3 eq_refl eq_refl eq_refl)
      as (r & w' & Hfit & Hheap & Hlog & _).
    exists r, w'. auto.
Defined.

(** C6 as stated fails where the exponential overflows: at [x = 1000]
    and [b = -1] the term [1 - exp(1000)] is minus infinity, its product
    with the zero amplitude is a NaN, and so is the sum with the offset
    5. *)
Lemma zero_amplitude_overflow :
  is_finite 5 = true /\
  exp_model (- (-1) * 1000) = infinity /\
  single_step_relaxation exp_model 1000 0 (-1) 5 = nan /\
  (single_step_relaxation exp_model 1000 0 (-1) 5 =? 5) = false.
Proof.
  split; [reflexivity|]. split; [reflexivity|].
  rewrite single_step_overflow by reflexivity.
  split; [reflexivity|apply nan_neq].
Qed.

Lemma zero_amplitude_is_offset_witness :
  (single_step_relaxation exp_model 4 0 0.5 1 =? 1) = true.
Proof.
  apply zero_amplitude_is_offset; reflexivity.
Defined.

(** C7 as stated fails where an exponential overflows.  At [x = 1000] and
    [d = -1] the second term is a NaN and with it the two-step value,
    while the single-step value is 3.  At [x = 1000] and [b = -1] with zero
    first amplitude both values are NaN, and a NaN equals nothing. *)
Lemma zero_second_amplitude_overflow :
  (exp_model (- (-1) * 1000) = infinity /\
   two_step_relaxation exp_model 1000 2 0.5 0 (-1) 1 = nan /\
   single_step_relaxation exp_model 1000 2 0.5 1 = 3 /\
   (two_step_relaxation exp_model 1000 2 0.5 0 (-1) 1
      =? single_step_relaxation exp_model 1000 2 0.5 1) = false) /\
  (is_finite (1 - exp_model (- 1 * 1000)) = true /\
   single_step_relaxation exp_model 1000 0 (-1) 1 = nan /\
   (two_step_relaxation exp_model 1000 0 (-1) 0 1 1
      =? single_step_relaxation exp_model 1000 0 (-1) 1) = false).
Proof.
  split.
  - split; [reflexivity|].
    rewrite two_step_overflow by reflexivity.
    split; [reflexivity|]. split; [reflexivity|apply nan_neq].
  - split; [reflexivity|].
    rewrite single_step_overflow by reflexivity.
    split; [reflexivity|]. rewrite eqb_spec.
    change (Prim2SF nan) with S754_nan.
    destruct (Prim2SF _) as [[|]|[|]| |[|] m e]; reflexivity.
Qed.

Lemma zero_second_amplitude_is_single_step_witness :
  (two_step_relaxation exp_model 4 2 0.5 0 0.25 1
     =? single_step_relaxation exp_model 4 2 0.5 1) = true.
Proof.
  apply zero_second_amplitude_is_single_step; reflexivity.
Defined.

End Instances.

(** * Properties beyond the claims *)

(** ** More binary64 arithmetic *)

Module Float64Algebra.

Lemma SFadd_comm (x y : spec_float) : SF64add x y = SF64add y x.
Proof.
  destruct x as [sx|sx| |sx mx ex], y as [sy|sy| |sy my ey];
    try reflexivity; try (destruct sx, sy; reflexivity).
  unfold SF64add, SFadd. rewrite (Z.min_comm ex ey), Z.add_comm. reflexivity.
Qed.

Lemma add_comm (x y : float) : x + y = y + x.
Proof. apply Prim2SF_inj. rewrite !add_spec. apply SFadd_comm. Qed.

Lemma digits2_shift52 (m : positive) :
  Zpos (digits2_pos (4503599627370496 * m)) = (Zpos (digits2_pos m) + 52)%Z.
Proof.
  cbn [Pos.mul digits2_pos]. rewrite !Pos2Z.inj_succ. lia.
Qed.

Lemma shr_52 (m : positive) (e : Z) :
  shr {| shr_m := Zpos (4503599627370496 * m); shr_r := false; shr_s := false |}
      e 52
  = ({| shr_m := Zpos m; shr_r := false; shr_s := false |}, (e + 52)%Z).
Proof. reflexivity. Qed.

Lemma SFmul_one_r (s : bool) (m : positive) (e : Z) :
  bounded prec emax m e = true ->
  SF64mul (S754_finite s m e) (Prim2SF 1) = S754_finite s m e.
Proof.
  intros Hb. apply andb_prop in Hb as [Hc He].
  unfold canonical_mantissa in Hc. apply Z.eqb_eq in Hc.
  change (Prim2SF 1) with (S754_finite false 4503599627370496 (-52)).
  unfold SF64mul, SFmul. rewrite Pos.mul_comm, xorb_false_r.
  unfold binary_round_aux, shr_fexp.
  cbn [Zdigits2 shr_record_of_loc]. rewrite digits2_shift52.
  replace (Z.pos (digits2_pos m) + 52 + (e + -52))%Z
    with (Z.pos (digits2_pos m) + e)%Z by lia.
  rewrite Hc. replace (e - (e + -52))%Z with 52%Z by lia.
  rewrite shr_52. cbn [shr_m loc_of_shr_record round_nearest_even Zdigits2].
  replace (e + -52 + 52)%Z with e by lia.
  rewrite Hc, Z.sub_diag. cbn [shr shr_m]. rewrite He. reflexivity.
Qed.

Lemma mul_one_r (a : float) : a * 1 = a.
Proof.
  apply Prim2SF_inj. rewrite mul_spec.
  pose proof (Prim2SF_valid a) as Hv.
  destruct (Prim2SF a) as [s|s| |s m e].
  - destruct s; reflexivity.
  - destruct s; reflexivity.
  - reflexivity.
  - apply SFmul_one_r. exact Hv.
Qed.

Lemma is_zero_SF (x : float) :
  is_zero x = true -> exists s, Prim2SF x = S754_zero s.
Proof.
  unfold is_zero. rewrite eqb_spec. change (Prim2SF 0) with (S754_zero false).
  destruct (Prim2SF x) as [s|[|]| |[|] m e]; try discriminate.
  intros _. exists s. reflexivity.
Qed.

Lemma zero_cases (y : float) (s : bool) :
  Prim2SF y = S754_zero s -> y = 0 \/ y = -0.
Proof.
  intros H. destruct s; [right|left]; apply Prim2SF_inj; rewrite H; reflexivity.
Qed.

Lemma opp_finite (b : float) : is_finite (- b) = is_finite b.
Proof.
  rewrite !is_finite_SF, opp_spec. destruct (Prim2SF b); reflexivity.
Qed.

(** A finite number times a zero, on either side, is a zero. *)
Lemma finite_mul_zero (a z : float) (sz : bool) :
  is_finite a = true -> Prim2SF z = S754_zero sz ->
  exists s, Prim2SF (a * z) = S754_zero s.
Proof.
  rewrite is_finite_SF. intros Ha Hz. rewrite mul_spec, Hz.
  destruct (Prim2SF a) as [s|s| |s m e]; try discriminate; eexists; reflexivity.
Qed.

Lemma zero_mul_finite_l (z a : float) (sz : bool) :
  Prim2SF z = S754_zero sz -> is_finite a = true ->
  exists s, Prim2SF (z * a) = S754_zero s.
Proof.
  rewrite is_finite_SF. intros Hz Ha. rewrite mul_spec, Hz.
  destruct (Prim2SF a) as [s|s| |s m e]; try discriminate; eexists; reflexivity.
Qed.

Lemma zero_add_zero (u v : float) (su sv : bool) :
  Prim2SF u = S754_zero su -> Prim2SF v = S754_zero sv ->
  exists s, Prim2SF (u + v) = S754_zero s.
Proof.
  intros Hu Hv. rewrite add_spec, Hu, Hv. destruct su, sv; eexists; reflexivity.
Qed.


(** Every finite number is below infinity in magnitude. *)
Lemma finite_below_infinity (value : float) :
  is_finite value = true -> (abs value <? abs (sqrt infinity)) = true.
Proof.
  rewrite is_finite_SF. intros H.
  change (abs (sqrt infinity)) with infinity.
  rewrite ltb_spec, abs_spec.
  destruct (Prim2SF value) as [s|s| |s m e]; try discriminate; reflexivity.
Qed.

End Float64Algebra.

Import Float64Algebra.

(** ** The model functions at the ends of the time axis *)

Section ModelProperties.
Variable np_exp : float -> float.

(** A relaxation term whose rate or time is zero is a zero. *)
Lemma relaxation_term_at_zero (x a b : float) :
  exp_at_zero np_exp ->
  is_finite a = true -> is_finite b = true -> is_finite x = true ->
  is_zero b || is_zero x = true ->
  exists s, Prim2SF (a * (1 - np_exp (- b * x))) = S754_zero s.
Proof.
  intros [He0 He0'] Ha Hb Hx Hz.
  assert (Harg : exists s, Prim2SF (- b * x) = S754_zero s).
  { apply orb_prop in Hz as [Hz|Hz]; apply is_zero_SF in Hz as [s Hs].
    - apply (zero_mul_finite_l (- b) x (negb s)); [|exact Hx].
      rewrite opp_spec, Hs. reflexivity.
    - apply (finite_mul_zero (- b) x s); [|exact Hs].
      rewrite opp_finite. exact Hb. }
  destruct Harg as [s Hs].
  assert (Hone : np_exp (- b * x) = 1).
  { destruct (zero_cases _ _ Hs) as [-> | ->]; assumption. }
  rewrite Hone. change (1 - 1) with 0.
  apply (finite_mul_zero a 0 false Ha). reflexivity.
Qed.

(** X1: with a zero rate, or at time zero, the single-step model equals
    its offset: for finite arguments and an exponential that is 1 at the
    zeros. *)
Theorem single_step_starts_at_offset (x a b c : float) :
  exp_at_zero np_exp ->
  is_finite a = true -> is_finite b = true -> is_finite x = true ->
  is_finite c = true ->
  is_zero b || is_zero x = true ->
  (single_step_relaxation np_exp x a b c =? c) = true.
Proof.
  intros He Ha Hb Hx Hc Hz. unfold single_step_relaxation.
  destruct (relaxation_term_at_zero x a b He Ha Hb Hx Hz) as [s Hs].
  exact (zero_add_finite _ c s Hs Hc).
Qed.

(** X2: at time zero, or with all rates zero, the two-step and three-step
    models equal their offsets. *)
Theorem multi_step_starts_at_offset (x a b c d e f g : float) :
  exp_at_zero np_exp ->
  is_finite x = true ->
  is_finite a = true -> is_finite b = true ->
  is_finite c = true -> is_finite d = true ->
  is_zero b || is_zero x = true ->
  is_zero d || is_zero x = true ->
  (is_finite e = true ->
   (two_step_relaxation np_exp x a b c d e =? e) = true) /\
  (is_finite e = true -> is_finite f = true -> is_finite g = true ->
   is_zero f || is_zero x = true ->
   (three_step_relaxation np_exp x a b c d e f g =? g) = true).
Proof.
  intros He Hx Ha Hb Hc Hd Hzb Hzd.
  destruct (relaxation_term_at_zero x a b He Ha Hb Hx Hzb) as [s1 H1].
  destruct (relaxation_term_at_zero x c d He Hc Hd Hx Hzd) as [s2 H2].
  destruct (zero_add_zero _ _ _ _ H1 H2) as [s12 H12].
  split.
  - intros Hfe. unfold two_step_relaxation.
    exact (zero_add_finite _ e s12 H12 Hfe).
  - intros Hfe Hff Hfg Hzf. unfold three_step_relaxation.
    destruct (relaxation_term_at_zero x e f He Hfe Hff Hx Hzf) as [s3 H3].
    destruct (zero_add_zero _ _ _ _ H12 H3) as [s123 H123].
    exact (zero_add_finite _ g s123 H123 Hfg).
Qed.

(** X3: once the exponentials have underflowed to zero each model is, bit
    for bit, the sum of its amplitudes and offset. *)
Theorem fully_relaxed (x a b c d e f g : float) :
  np_exp (- b * x) = 0 ->
  single_step_relaxation np_exp x a b c = a + c /\
  (np_exp (- d * x) = 0 ->
   two_step_relaxation np_exp x a b c d e = a + c + e /\
   (np_exp (- f * x) = 0 ->
    three_step_relaxation np_exp x a b c d e f g = a + c + e + g)).
Proof.
  intros Hb.
  unfold single_step_relaxation, two_step_relaxation, three_step_relaxation.
  rewrite Hb. change (1 - 0) with 1. rewrite !mul_one_r.
  split; [reflexivity|]. intros Hd. rewrite Hd. change (1 - 0) with 1.
  rewrite !mul_one_r. split; [reflexivity|]. intros Hf. rewrite Hf.
  change (1 - 0) with 1. rewrite !mul_one_r. reflexivity.
Qed.


(** X5: with zero third amplitude the three-step model equals the
    two-step model, wherever the third relaxation term is a finite float
    and the two-step value is not a NaN. *)
Theorem zero_third_amplitude_is_two_step (x a b c d f g : float) :
  is_finite (1 - np_exp (- f * x)) = true ->
  is_nan (two_step_relaxation np_exp x a b c d g) = false ->
  (three_step_relaxation np_exp x a b c d 0 f g
     =? two_step_relaxation np_exp x a b c d g) = true.
Proof.
  intros Ht Hn. unfold three_step_relaxation, two_step_relaxation in *.
  destruct (zero_mul_finite _ Ht) as [s Hz].
  exact (add_zero_between _ _ g s Hz Hn).
Qed.

End ModelProperties.

(** ** The diagnostics at the edges *)

Section DriverProperties.

Variable float_str : float -> string.
Variable curve_fit : solver.

Local Abbreviation fit := (relaxation_fit float_str curve_fit).
Local Abbreviation message_of popt pcov :=
  (fun i => warning_message float_str (letter_label i)
              (standard_error pcov i) (nth i popt nan)).

(** The flagged indices that have a letter. *)
Local Abbreviation lettered popt pcov :=
  (fun i => unreliable popt pcov i && Nat.ltb i 26).

Section Loop.
Variables (n : nat) (popt : list float) (pcov : list (list float)).
Hypothesis Hshape : well_shaped n popt pcov.

Lemma loop_step (pre : list float) (value : float) (rest : list float) :
  popt = pre ++ value :: rest ->
  diagonal_entry (ObjMatrix pcov) (length pre) (length pre)
    = Some (nth (length pre) (nth (length pre) pcov []) nan) /\
  unreliable popt pcov (length pre)
    = (abs value <? abs (standard_error pcov (length pre))).
Proof.
  intros Hpre.
  assert (Hlen : length pre < n).
  { destruct Hshape as (Hl & _). rewrite <- Hl, Hpre, length_app.
    cbn [length]. lia. }
  split; [exact (well_shaped_entry _ _ _ _ Hshape Hlen)|].
  unfold unreliable, exceeds.
  rewrite Hpre, app_nth2, Nat.sub_diag by lia. reflexivity.
Qed.

(** The loop runs to its end when every flagged index has a letter. *)
Lemma diagnose_lettered :
  forall values pre,
    popt = pre ++ values ->
    (forall i, length pre <= i < length pre + length values ->
       unreliable popt pcov i = true -> i < 26) ->
    diagnose float_str (length pre) values (ObjMatrix pcov) =
    (map (message_of popt pcov)
         (filter (unreliable popt pcov) (seq (length pre) (length values))),
     None).
Proof.
  induction values as [|value rest IH]; intros pre Hpre Hlow.
  - reflexivity.
  - destruct (loop_step pre value rest Hpre) as [Hentry Hflag].
    assert (Hv : nth (length pre) popt nan = value).
    { rewrite Hpre, app_nth2, Nat.sub_diag by lia. reflexivity. }
    cbn [diagnose length seq filter]. rewrite Hentry. cbv zeta.
    fold (standard_error pcov (length pre)). rewrite Hflag.
    specialize (IH (pre ++ [value])).
    rewrite length_app, Nat.add_1_r in IH.
    rewrite IH.
    + destruct (abs value <? abs (standard_error pcov (length pre))) eqn:Hlt.
      * rewrite alphabet_letter.
        -- cbn [map]. rewrite Hv. reflexivity.
        -- apply Hlow; [cbn [length]; lia|exact Hflag].
      * reflexivity.
    + rewrite <- app_assoc. exact Hpre.
    + intros i Hi. apply Hlow. cbn [length]. lia.
Qed.

(** The loop stops with [IndexError] at the first flagged index past z,
    having warned about the flagged indices before it. *)
Lemma diagnose_unlettered :
  forall values pre,
    popt = pre ++ values ->
    (exists k, length pre <= k < length pre + length values /\
       26 <= k /\ unreliable popt pcov k = true) ->
    diagnose float_str (length pre) values (ObjMatrix pcov) =
    (map (message_of popt pcov)
         (filter (lettered popt pcov) (seq (length pre) (length values))),
     Some IndexError).
Proof.
  induction values as [|value rest IH]; intros pre Hpre (k & Hk & Hk26 & Hku).
  - cbn [length] in Hk. lia.
  - destruct (loop_step pre value rest Hpre) as [Hentry Hflag].
    assert (Hv : nth (length pre) popt nan = value).
    { rewrite Hpre, app_nth2, Nat.sub_diag by lia. reflexivity. }
    cbn [length] in Hk.
    cbn [diagnose length seq filter]. rewrite Hentry. cbv zeta.
    fold (standard_error pcov (length pre)). rewrite Hflag.
    specialize (IH (pre ++ [value])).
    rewrite length_app, Nat.add_1_r in IH.
    destruct (abs value <? abs (standard_error pcov (length pre))) eqn:Hlt.
    + destruct (Nat.ltb_spec (length pre) 26) as [Hlo|Hhi].
      * rewrite alphabet_letter by exact Hlo.
        rewrite IH.
        -- cbn [andb map]. rewrite Hv. reflexivity.
        -- rewrite <- app_assoc. exact Hpre.
        -- exists k. repeat split; try assumption; lia.
      * rewrite alphabet_end by exact Hhi. cbn [andb].
        replace (filter (lettered popt pcov) (seq (S (length pre)) (length rest)))
          with (@nil nat); [reflexivity|].
        symmetry. rewrite <- (filter_false (seq (S (length pre)) (length rest))).
        apply filter_ext_in. intros i Hi. apply in_seq in Hi.
        destruct (Nat.ltb_spec i 26) as [Hi26|_]; [lia|].
        apply andb_false_r.
    + cbn [andb]. apply IH.
      * rewrite <- app_assoc. exact Hpre.
      * exists k. repeat split; try assumption; try lia.
        destruct (Nat.eq_dec k (length pre)) as [->|Hne]; [|lia].
        rewrite Hflag in Hku. discriminate.
Qed.

End Loop.

Section Fit.
Variables (x y : loc) (f : pyfunc) (p0 : loc) (maxfev : Z) (w : world).
Variables (xdata ydata guess : pyobj).
Variables (n : nat) (popt : list float) (pcov : list (list float)).
Hypothesis Hx : nth_error (heap w) x = Some xdata.
Hypothesis Hy : nth_error (heap w) y = Some ydata.
Hypothesis Hg : nth_error (heap w) p0 = Some guess.
Hypothesis Hcheck : py_len guess = arity f.
Hypothesis Hfit : curve_fit f xdata ydata guess maxfev = inr (popt, pcov).
Hypothesis Hshape : well_shaped n popt pcov.

Local Abbreviation ev := (EvCurveFit f xdata ydata guess maxfev).

(** A loop that stops with an exception ends the call with it, before
    any prediction is made. *)
Lemma fit_stopped (messages : list string) (e : exn) :
  diagnose float_str 0 popt (ObjMatrix pcov) = (messages, Some e) ->
  fit x y f p0 maxfev w =
  (inl e,
   {| heap := heap w ++ [ObjSeq popt; ObjMatrix pcov];
      log := log w ++ ev :: map EvWarn messages |}).
Proof.
  intros Hd. rewrite (relaxation_fit_outcome _ _ _ _ _ _ _ _ _ _ _ Hx Hy Hg).
  unfold fit_outcome, returned, extend.
  rewrite (proj2 (Z.eqb_eq _ _) Hcheck), Hfit, Hd. reflexivity.
Qed.

(** A loop that runs to its end leaves the log with its warnings,
    whatever the predictions then do. *)
Lemma fit_diagnosed (messages : list string) :
  diagnose float_str 0 popt (ObjMatrix pcov) = (messages, None) ->
  exists r w',
    fit x y f p0 maxfev w = (r, w') /\
    log w' = log w ++ ev :: map EvWarn messages.
Proof.
  intros Hd. rewrite (relaxation_fit_outcome _ _ _ _ _ _ _ _ _ _ _ Hx Hy Hg).
  eexists _, _. split; [reflexivity|].
  unfold fit_outcome, extend.
  rewrite (proj2 (Z.eqb_eq _ _) Hcheck), Hfit, Hd.
  destruct xdata as [xs|rows]; [|reflexivity].
  destruct (predict f xs popt); reflexivity.
Qed.


(** X7: when every variance is infinite, as SciPy reports a covariance
    it could not estimate, every finite parameter is flagged: a model of
    at most 26 parameters gets one warning per parameter, in order, each
    with standard deviation infinity. *)
Theorem infinite_covariance_flags_all :
  n <= 26 ->
  (forall i, i < n -> nth i (nth i pcov []) nan = infinity) ->
  (forall i, i < n -> is_finite (nth i popt nan) = true) ->
  exists r w',
    fit x y f p0 maxfev w = (r, w') /\
    log w' =
      log w ++ ev
        :: map EvWarn
             (map (fun i => warning_message float_str (letter_label i)
                              infinity (nth i popt nan))
                  (seq 0 n)).
Proof.
  intros Hn Hinf Hfin.
  assert (Hl : length popt = n) by apply Hshape.
  apply fit_diagnosed.
  pose proof (diagnose_lettered n popt pcov Hshape popt [] eq_refl) as Hd.
  cbn [length] in Hd. rewrite Hd by (intros; lia). rewrite Hl.
  f_equal.
  replace (filter (unreliable popt pcov) (seq 0 n)) with (seq 0 n).
  - apply map_ext_in. intros i Hi. apply in_seq in Hi.
    unfold standard_error. rewrite Hinf by lia. reflexivity.
  - symmetry. rewrite <- (filter_true (seq 0 n)) at 2.
    apply filter_ext_in. intros i Hi. apply in_seq in Hi.
    unfold unreliable, exceeds, standard_error. rewrite Hinf by lia.
    apply finite_below_infinity, Hfin. lia.
Qed.

(** X8: the letters end at z.  For a model of any number of parameters
    the call returns, with the warnings of [spec_warnings], when no
    parameter from index 26 on is flagged; when one is, the call raises
    [IndexError] after the solver's arrays are made and the flagged
    parameters a to z are warned about, and returns nothing. *)
Theorem letters_end_at_z :
  ((forall i, 26 <= i < n -> unreliable popt pcov i = false) ->
   forall xs, xdata = ObjSeq xs -> Z.of_nat n = arity f ->
   exists w',
     fit x y f p0 maxfev w =
       (inr (length (heap w), S (length (heap w)), S (S (length (heap w)))),
        w') /\
     heap w' =
       heap w ++ [ObjSeq popt; ObjMatrix pcov;
                  ObjSeq (map (fun i => code f (i :: popt)) xs)] /\
     log w' = log w ++ ev :: map EvWarn (spec_warnings float_str popt pcov)) /\
  ((exists k, 26 <= k < n /\ unreliable popt pcov k = true) ->
   exists w',
     fit x y f p0 maxfev w = (inl IndexError, w') /\
     heap w' = heap w ++ [ObjSeq popt; ObjMatrix pcov] /\
     log w' =
       log w ++ ev
         :: map EvWarn
              (map (message_of popt pcov)
                   (filter (lettered popt pcov) (seq 0 n)))).
Proof.
  assert (Hl : length popt = n) by apply Hshape.
  split.
  - intros Hlow xs Hxs Har.
    pose proof (diagnose_lettered n popt pcov Hshape popt [] eq_refl) as Hd.
    cbn [length] in Hd. fold (spec_warnings float_str popt pcov) in Hd.
    rewrite (relaxation_fit_outcome _ _ _ _ _ _ _ _ _ _ _ Hx Hy Hg).
    eexists. unfold fit_outcome.
    rewrite (proj2 (Z.eqb_eq _ _) Hcheck), Hfit, Hd, Hxs.
    + rewrite predict_map by (unfold arity in Har; lia).
      repeat split.
    + intros i Hi Hu. destruct (Nat.lt_ge_cases i 26) as [Hlt|Hge]; [exact Hlt|].
      rewrite Hlow in Hu by lia. discriminate.
  - intros (k & Hk & Hu).
    pose proof (diagnose_unlettered n popt pcov Hshape popt [] eq_refl) as Hd.
    cbn [length] in Hd. rewrite Hl in Hd.
    assert (Hex : exists k, 0 <= k < 0 + n /\ 26 <= k
                            /\ unreliable popt pcov k = true).
    { exists k. repeat split; try lia. exact Hu. }
    eexists. rewrite (fit_stopped _ _ (Hd Hex)). repeat split.
Qed.

End Fit.

End DriverProperties.

(** ** Closed instances of the properties *)

Section PropertyInstances.

Import Example Wide.

Local Abbreviation single := (single_step exp_model).

Lemma exp_model_at_zero : exp_at_zero exp_model.
Proof. split; reflexivity. Qed.

(** At time zero the single-step model with amplitude 2 and rate 1/2 is
    its offset 1; so it is at time 4 with rate zero. *)
Lemma single_step_starts_at_offset_witness :
  (single_step_relaxation exp_model 0 2 0.5 1 =? 1) = true /\
  (single_step_relaxation exp_model 4 2 0 1 =? 1) = true.
Proof.
  split.
  - apply (single_step_starts_at_offset exp_model 0 2 0.5 1 exp_model_at_zero);
      reflexivity.
  - apply (single_step_starts_at_offset exp_model 4 2 0 1 exp_model_at_zero);
      reflexivity.
Defined.

Lemma multi_step_starts_at_offset_witness :
  (two_step_relaxation exp_model 0 2 0.5 3 0.25 1 =? 1) = true /\
  (three_step_relaxation exp_model 0 2 0.5 3 0.25 1 0.125 (-1) =? -1) = true.
Proof.
  split.
  - apply (proj1 (multi_step_starts_at_offset exp_model 0 2 0.5 3 0.25 1 0 0
                    exp_model_at_zero eq_refl eq_refl eq_refl eq_refl eq_refl
                    eq_refl eq_refl)).
    reflexivity.
  - apply (proj2 (multi_step_starts_at_offset exp_model 0 2 0.5 3 0.25 1 0.125
                    (-1) exp_model_at_zero eq_refl eq_refl eq_refl eq_refl
                    eq_refl eq_refl eq_refl));
      reflexivity.
Defined.

(** At time 1000 with rates 1, 2 and 3 every exponential has underflowed. *)
Lemma fully_relaxed_witness :
  single_step_relaxation exp_model 1000 2 1 3 = 2 + 3 /\
  two_step_relaxation exp_model 1000 2 1 3 2 0.5 = 2 + 3 + 0.5 /\
  three_step_relaxation exp_model 1000 2 1 3 2 0.5 3 1 = 2 + 3 + 0.5 + 1.
Proof.
  destruct (fully_relaxed exp_model 1000 2 1 3 2 0.5 3 1 eq_refl)
    as (H1 & H23).
  destruct (H23 eq_refl) as (H2 & H3).
  split; [exact H1|]. split; [exact H2|]. exact (H3 eq_refl).
Defined.

Lemma zero_third_amplitude_is_two_step_witness :
  (three_step_relaxation exp_model 4 2 0.5 3 0.25 0 0.125 1
     =? two_step_relaxation exp_model 4 2 0.5 3 0.25 1) = true.
Proof.
  apply zero_third_amplitude_is_two_step; reflexivity.
Defined.


Lemma well_shaped3_unknown : well_shaped 3 popt3 pcov3_unknown.
Proof. repeat constructor. Qed.


(** A covariance of infinities: the call warns about a, b and c. *)
Lemma infinite_covariance_flags_all_witness :
  exists r w',
    relaxation_fit decimal_str (converged popt3 pcov3_unknown)
      times signal single guess3 5000%Z observations = (r, w') /\
    log w' =
      log observations
      ++ EvCurveFit single (ObjSeq [0; 1; 2; 4]) (ObjSeq [1; 1.75; 2.25; 2.75])
           (ObjSeq [1; 1; 1]) 5000
         :: map EvWarn
              (map (fun i => warning_message decimal_str (letter_label i)
                               infinity (nth i popt3 nan))
                   (seq 0 3)).
Proof.
  apply (infinite_covariance_flags_all decimal_str
           (converged popt3 pcov3_unknown)
           times signal single guess3 5000%Z observations
           _ _ _ 3 popt3 pcov3_unknown
           eq_refl eq_refl eq_refl eq_refl eq_refl well_shaped3_unknown).
  - lia.
  - intros i Hi. do 3 (destruct i as [|i]; [reflexivity|]). lia.
  - intros i Hi. do 3 (destruct i as [|i]; [reflexivity|]). lia.
Defined.

Lemma well_shaped27 : well_shaped 27 popt27 pcov27.
Proof. repeat constructor. Qed.

Lemma well_shaped27_tight : well_shaped 27 popt27 pcov27_tight.
Proof. repeat constructor. Qed.

(** The polynomial of 27 parameters: with small variances throughout the
    call returns; with variance 4 for the last parameter, of value 1, it
    raises [IndexError]. *)
Lemma letters_end_at_z_witness :
  (exists w',
     relaxation_fit decimal_str (converged popt27 pcov27_tight)
       times signal polynomial guess27 5000%Z observations27
       = (inr (3, 4, 5)%nat, w') /\
     heap w' =
       heap observations27
       ++ [ObjSeq popt27; ObjMatrix pcov27_tight;
           ObjSeq (map (fun i => code polynomial (i :: popt27)) [0; 1; 2; 4])] /\
     log w' =
       log observations27
       ++ EvCurveFit polynomial (ObjSeq [0; 1; 2; 4])
            (ObjSeq [1; 1.75; 2.25; 2.75]) (ObjSeq (repeat 1 27)) 5000
          :: map EvWarn (spec_warnings decimal_str popt27 pcov27_tight)) /\
  (exists w',
     relaxation_fit decimal_str (converged popt27 pcov27)
       times signal polynomial guess27 5000%Z observations27
       = (inl IndexError, w') /\
     heap w' = heap observations27 ++ [ObjSeq popt27; ObjMatrix pcov27] /\
     log w' =
       log observations27
       ++ EvCurveFit polynomial (ObjSeq [0; 1; 2; 4])
            (ObjSeq [1; 1.75; 2.25; 2.75]) (ObjSeq (repeat 1 27)) 5000
          :: map EvWarn
               (map (fun i => warning_message decimal_str (letter_label i)
                                (standard_error pcov27 i) (nth i popt27 nan))
                    (filter (fun i => unreliable popt27 pcov27 i && Nat.ltb i 26)
                            (seq 0 27)))).
Proof.
  split.
  - apply (proj1 (letters_end_at_z decimal_str (converged popt27 pcov27_tight)
                    times signal polynomial guess27 5000%Z observations27
                    _ _ _ 27 popt27 pcov27_tight
                    eq_refl eq_refl eq_refl eq_refl eq_refl
                    well_shaped27_tight)).
    + intros i Hi. assert (i = 26)%nat as -> by lia. reflexivity.
    + reflexivity.
    + reflexivity.
  - apply (proj2 (letters_end_at_z decimal_str (converged popt27 pcov27)
                    times signal polynomial guess27 5000%Z observations27
                    _ _ _ 27 popt27 pcov27
                    eq_refl eq_refl eq_refl eq_refl eq_refl well_shaped27)).
    exists 26%nat. split; [lia|reflexivity].
Defined.

End PropertyInstances.
